(** * cpp-blockies: the seeded generator, the colours and the mirrored bitmap

    A shallow embedding of [blockies.cpp]: the [Number] wrapper with its
    32-bit bitwise operators, the xorshift [PseudorandomNumberGenerator],
    and the lambdas of [main] ([createColor], [createImageData],
    [createCanvas], [createIcon]), followed by the properties of the
    generation pipeline.

    Conventions of the embedding.

    - [Number] wraps a [double].  Every value the program forms is a dyadic
      rational, and the embedding carries that value as an exact rational
      ([Q]).  A double holds an integer exactly up to [2^53];
      [seed_magnitude] bounds the state words by [2^32] times the number of
      characters read, so sums and differences are the double ones for
      every seed below [2^21] characters.  Products are rounded ([fl]); the
      one whose exact value needs more than 53 significant bits is
      [rand() * 2.3].
    - The integer conversions of [Number] behave as on two's complement
      targets: a conversion to a narrower or unsigned type keeps the low 32
      bits, [<<] on [int32_t] wraps, [>>] on [int32_t] propagates the sign.
    - The lambdas of [main] are a transliteration of JavaScript: [||] picks
      the right operand when the left one is falsy (absent, [0] or the empty
      string).  Their arrays are the [Array] of the file, a [std::vector]:
      [row[x] = v] does not extend it.
    - Where the C++ program has undefined behaviour the computation ends
      with [Undefined]; nothing is said of the program from there on.
    - [randomNumberGenerator] is one object captured by reference: the
      lambdas are state-passing computations over it. *)

From Stdlib Require Import ZArith QArith Qround String Ascii List Lia Bool.
From Stdlib Require Import DecimalString Floats.SpecFloat.
Import ListNotations.

Local Open Scope Z_scope.

(** ** Number *)

Module Number.

(** [struct Number { double m_value; }] *)
Definition t : Type := Q.

Definition of_int (z : Z) : t := inject_Z z.

(** [static_cast<int64_t>(m_value)]: truncation toward zero. *)
Definition to_int64 (v : t) : Z := Z.quot (Qnum v) (Zpos (Qden v)).

(** [static_cast<int32_t>(u)] for [0 <= u < 2^32]. *)
Definition int32_of_bits (u : Z) : Z :=
  if u <? 2147483648 then u else u - 4294967296.

(** [static_cast<int64_t>(m_value) & 0xFFFFFFFF] *)
Definition bits (v : t) : Z := Z.land (to_int64 v) 4294967295.

(** [static_cast<int32_t>(static_cast<int64_t>(m_value) & 0xFFFFFFFF)] *)
Definition to_int32 (v : t) : Z := int32_of_bits (bits v).

(** [int32_t << n], the result kept in 32 bits. *)
Definition int32_shl (a n : Z) : Z :=
  int32_of_bits (Z.land (Z.shiftl a n) 4294967295).

(** [operator<<] *)
Definition shl (v : t) (n : Z) : t := of_int (int32_shl (to_int32 v) n).

(** [operator>>]: [int32_t >> n]. *)
Definition shr (v : t) (n : Z) : t := of_int (Z.shiftr (to_int32 v) n).

(** [operator^] *)
Definition xor (a b : t) : t := of_int (Z.lxor (to_int32 a) (to_int32 b)).

(** Rounding of a non-negative integer to 53 significant bits, to the
    nearest and, at a tie, to the even one: the rounding of binary64. *)
Definition round53 (n : Z) : Z :=
  let e := Z.log2 n - 52 in
  if e <=? 0 then n
  else
    let q := Z.shiftr n e in
    let r := Z.land n (Z.ones e) in
    let half := Z.shiftl 1 (e - 1) in
    let q' := if r <? half then q
              else if half <? r then q + 1
              else if Z.even q then q else q + 1 in
    Z.shiftl q' e.

(** The double nearest to a dyadic rational [n / 2^k] (within the normal
    range of binary64, where scaling by a power of two commutes with
    rounding). *)
Definition fl (v : t) : t :=
  (Z.sgn (Qnum v) * round53 (Z.abs (Qnum v))) # (Qden v).

(** [operator+], [operator-], [operator/]: exact on the operands the
    program gives them.  [operator*]: the rounded product. *)
Definition add (a b : t) : t := Qplus a b.
Definition sub (a b : t) : t := Qminus a b.
Definition mul (a b : t) : t := fl (Qmult a b).
Definition div (a b : t) : t := Qdiv a b.

(** The literal [2.3]: the double [0x4002666666666666]. *)
Definition lit_2_3 : t := 5179139571476070 # 2251799813685248.

(** [static_cast<uint32_t>(double)] *)
Definition to_uint32 (v : t) : Z := Z.modulo (to_int64 v) 4294967296.

(** [floor] and [ceil] of [<cmath>]. *)
Definition floor (v : t) : t := of_int (Qfloor v).
Definition ceil (v : t) : t := of_int (Qceiling v).

End Number.

Abbreviation Number := Number.t.

(** [unsignedShiftRight(number, n)]: [static_cast<uint32_t>(number >> n)]. *)
Definition unsignedShiftRight (number : Number) (n : Z) : Number :=
  Number.of_int (Number.to_uint32 (Number.shr number n)).

(** ** PseudorandomNumberGenerator *)

(** [Number m_seed[4]] *)
Record PseudorandomNumberGenerator : Type := mkPRNG {
  m_seed0 : Number;
  m_seed1 : Number;
  m_seed2 : Number;
  m_seed3 : Number
}.

(** [m_seed[i]] for an index already reduced modulo 4. *)
Definition m_seed (g : PseudorandomNumberGenerator) (i : nat) : Number :=
  match i with
  | O => m_seed0 g
  | 1%nat => m_seed1 g
  | 2%nat => m_seed2 g
  | _ => m_seed3 g
  end.

(** [m_seed[i] = v] *)
Definition set_m_seed (g : PseudorandomNumberGenerator) (i : nat) (v : Number)
  : PseudorandomNumberGenerator :=
  match i with
  | O => mkPRNG v (m_seed1 g) (m_seed2 g) (m_seed3 g)
  | 1%nat => mkPRNG (m_seed0 g) v (m_seed2 g) (m_seed3 g)
  | 2%nat => mkPRNG (m_seed0 g) (m_seed1 g) v (m_seed3 g)
  | _ => mkPRNG (m_seed0 g) (m_seed1 g) (m_seed2 g) v
  end.

Definition words (g : PseudorandomNumberGenerator) : list Number :=
  [m_seed0 g; m_seed1 g; m_seed2 g; m_seed3 g].

(** ** Array *)

(** The result of code that may run into undefined behaviour. *)
Inductive Outcome (A : Type) : Type :=
| Value (a : A)
| Undefined.

Arguments Value {A} a.
Arguments Undefined {A}.

Module Array.

(** [class Array : public std::vector<T>] *)
Definition t (T : Type) : Type := list T.

(** [slice(startIndex, count)]: the [count] elements from [startIndex]
    on. *)
Definition slice {T : Type} (a : t T) (startIndex count : nat) : t T :=
  firstn count (skipn startIndex a).

Definition reverse {T : Type} (a : t T) : t T := rev a.

Definition push {T : Type} (a : t T) (value : T) : t T := a ++ [value].

(** [concat(other)].  The copy of the receiver is handed the receiver's
    [end()], not its own, as the position of [insert]: when both arrays
    hold elements that position lies in the storage of another vector and
    the behaviour is undefined.  (The documentation names JavaScript's
    [Array.prototype.concat].) *)
Definition concat {T : Type} (a other : t T) : Outcome (t T) :=
  match a, other with
  | _ :: _, _ :: _ => Undefined
  | _, _ => Value (a ++ other)
  end.

(** [a[i] = value]: [operator[]] of [std::vector] does not grow the
    vector; at or past the size the write is out of bounds. *)
Definition set {T : Type} (a : t T) (i : nat) (value : T) : Outcome (t T) :=
  if (i <? length a)%nat then Value (firstn i a ++ value :: skipn (S i) a)
  else Undefined.

End Array.

(** The parts of the C++ implementation and of its library that the source
    leaves open. *)
Class Platform : Type := {
  (** the value of a [char] in arithmetic ([seed[i]]): its code, read as
      [signed char] or [unsigned char] as the target has it *)
  char_value : ascii -> Z;
  (** [std::to_string(double)] *)
  to_string : Number -> string
}.

(** Computations over the shared [randomNumberGenerator]. *)
Definition M (A : Type) : Type :=
  PseudorandomNumberGenerator -> A * PseudorandomNumberGenerator.

Definition ret {A : Type} (a : A) : M A := fun g => (a, g).

Definition bind {A B : Type} (m : M A) (k : A -> M B) : M B :=
  fun g => let (a, g') := m g in k a g'.

Notation "x <- m ;; k" := (bind m (fun x => k))
  (at level 61, m at next level, right associativity).

(** Sequencing after a step that may be undefined: an undefined step ends
    the computation, the generator being as the calls made until then left
    it. *)
Definition bindU {A B : Type} (m : M (Outcome A))
  (k : A -> M (Outcome B)) : M (Outcome B) :=
  fun g =>
    match m g with
    | (Value a, g') => k a g'
    | (Undefined, g') => (Undefined, g')
    end.

Notation "x <<- m ;; k" := (bindU m (fun x => k))
  (at level 61, m at next level, right associativity).

Section Blockies.

Context {platform : Platform}.

(** The second loop of [seed], from index [i] on. *)
Fixpoint seed_loop (i : nat) (text : string) (g : PseudorandomNumberGenerator)
  : PseudorandomNumberGenerator :=
  match text with
  | EmptyString => g
  | String c rest =>
      let k := (i mod 4)%nat in
      seed_loop (S i) rest
        (set_m_seed g k
           (Number.add
              (Number.sub (Number.shl (m_seed g k) 5) (m_seed g k))
              (Number.of_int (char_value c))))
  end.

(** [void seed(const String& seed)] *)
Definition seed (text : string) (g : PseudorandomNumberGenerator)
  : PseudorandomNumberGenerator :=
  seed_loop 0 text
    (fold_left (fun g' i => set_m_seed g' i (Number.of_int 0)) (seq 0 4) g).

(** [Number generate()] *)
Definition generate : M Number := fun g =>
  let t := Number.xor (m_seed g 0) (Number.shl (m_seed g 0) 11) in
  let g := set_m_seed g 0 (m_seed g 1) in
  let g := set_m_seed g 1 (m_seed g 2) in
  let g := set_m_seed g 2 (m_seed g 3) in
  let g := set_m_seed g 3
             (Number.xor
                (Number.xor
                   (Number.xor (m_seed g 3) (Number.shr (m_seed g 3) 19)) t)
                (Number.shr t 8)) in
  (Number.div (unsignedShiftRight (m_seed g 3) 0)
     (unsignedShiftRight (Number.of_int (Number.int32_shl 1 31)) 0), g).

(** ** The lambdas of [main] *)

Definition rand : M Number := generate.

(** [createColor].  The four draws of [l] are summed, and the sum is exact:
    it does not depend on the order in which the four calls are made. *)
Definition createColor : M string :=
  r <- rand ;;
  let h := Number.floor (Number.mul r (Number.of_int 360)) in
  r <- rand ;;
  let s := (to_string (Number.add (Number.mul r (Number.of_int 60))
                         (Number.of_int 40)) ++ "%")%string in
  l1 <- rand ;; l2 <- rand ;; l3 <- rand ;; l4 <- rand ;;
  let l := (to_string
              (Number.mul (Number.add (Number.add (Number.add l1 l2) l3) l4)
                 (Number.of_int 25)) ++ "%")%string in
  ret ("hsl(" ++ to_string h ++ "," ++ s ++ "," ++ l ++ ")")%string.

(** The number of iterations of [for (auto i = 0; i < bound; i++)]. *)
Definition iterations (bound : Number) : nat := Z.to_nat (Qceiling bound).

(** The right-hand side of [row[x] = floor(rand() * 2.3)]: one cell
    drawn. *)
Definition draw_cell : M Number :=
  r <- rand ;;
  ret (Number.floor (Number.mul r Number.lit_2_3)).

(** The loop over [x] of [createImageData], [n] iterations from [x] on: the
    cell is drawn, then stored at [row[x]]. *)
Fixpoint draw_cells (n x : nat) (row : Array.t Number)
  : M (Outcome (Array.t Number)) :=
  match n with
  | O => ret (Value row)
  | S n' =>
      cell <- draw_cell ;;
      row <<- ret (Array.set row x cell) ;;
      draw_cells n' (S x) row
  end.

(** One iteration of the loop over [y]: the row drawn, mirrored and pushed
    onto [data]. *)
Definition push_row (dataWidth mirrorWidth : Number) (data : Array.t Number)
  : M (Outcome (Array.t Number)) :=
  row <<- draw_cells (iterations dataWidth) 0 [] ;;
  let r := Array.slice row 0 (Z.to_nat (Number.to_int64 mirrorWidth)) in
  let r := Array.reverse r in
  row <<- ret (Array.concat row r) ;;
  ret (Value (fold_left Array.push row data)).

Fixpoint push_rows (n : nat) (dataWidth mirrorWidth : Number)
  (data : Array.t Number) : M (Outcome (Array.t Number)) :=
  match n with
  | O => ret (Value data)
  | S n' =>
      data <<- push_row dataWidth mirrorWidth data ;;
      push_rows n' dataWidth mirrorWidth data
  end.

Definition createImageData (size : Z) : M (Outcome (Array.t Number)) :=
  let width := Number.of_int size in
  let height := Number.of_int size in
  let dataWidth := Number.ceil (Number.div width (Number.of_int 2)) in
  let mirrorWidth := Number.sub width dataWidth in
  push_rows (iterations height) dataWidth mirrorWidth [].

End Blockies.

(** The canvas of the document, as the calls made on it. *)
Inductive CanvasCall : Type :=
| fillStyle (style : string)
| fillRect (x y w h : Z).

Module Canvas.
Record t : Type := make {
  width : Z;
  height : Z;
  calls : list CanvasCall
}.
End Canvas.

(** The loop over [i] of [createCanvas]. *)
Fixpoint paint_cells (imageData : Array.t Number) (i width scale : Z)
  (color spotcolor : string) : list CanvasCall :=
  match imageData with
  | [] => []
  | cell :: rest =>
      let row := i / width in
      let col := i mod width in
      fillStyle (if Qeq_bool cell 1 then color else spotcolor)
      :: (if Qeq_bool cell 0 then []
          else [fillRect (col * scale) (row * scale) scale scale])
      ++ paint_cells rest (i + 1) width scale color spotcolor
  end.

(** [createCanvas]; [imageData] holds a square number of cells
    ([sqrt] is exact on it). *)
Definition createCanvas (imageData : Array.t Number) (color : string)
  (scale : Z) (bgcolor spotcolor : string) : Canvas.t :=
  let width := Z.sqrt (Z.of_nat (length imageData)) in
  let c_width := width * scale in
  Canvas.make c_width c_width
    (fillStyle bgcolor :: fillRect 0 0 c_width c_width :: fillStyle color
     :: paint_cells imageData 0 width scale color spotcolor).

(** The options record: every field may be absent. *)
Module Opts.
Record t : Type := make {
  size : option Z;
  scale : option Z;
  seed : option string;
  color : option string;
  bgcolor : option string;
  spotcolor : option string
}.
(** [{}] *)
Definition empty : t := make None None None None None None.
End Opts.

(** The locals of [createIcon] at the call of [createCanvas]; [imageData]
    is what [createImageData] came to. *)
Module Icon.
Record t : Type := make {
  size : Z;
  scale : Z;
  seed : string;
  color : string;
  bgcolor : string;
  spotcolor : string;
  imageData : Outcome (Array.t Number)
}.
End Icon.

(** [a || b] on an optional number: [b] when [a] is absent or [0]. *)
Definition or_number (a : option Z) (b : Z) : Z :=
  match a with
  | Some v => if v =? 0 then b else v
  | None => b
  end.

(** An optional string that is present and not empty. *)
Definition truthy (a : option string) : bool :=
  match a with
  | Some EmptyString | None => false
  | Some _ => true
  end.

(** [a || b] on an optional string; [b] is evaluated only when [a] is absent
    or empty. *)
Definition or_string (a : option string) (b : M string) : M string :=
  match a with
  | Some EmptyString | None => b
  | Some s => ret s
  end.

Section Assembly.

Context {platform : Platform}.

(** [createIcon] up to the call of [createCanvas].  [entropy] is the text
    that [floor((random() * pow(10, 16))).toString(16)] yields at this
    call. *)
Definition createIcon_locals (opts : option Opts.t) (entropy : string)
  : M Icon.t :=
  let opts := match opts with Some o => o | None => Opts.empty end in
  let size := or_number (Opts.size opts) 8 in
  let scale := or_number (Opts.scale opts) 4 in
  seed_text <- or_string (Opts.seed opts) (ret entropy) ;;
  _ <- (fun g => (tt, seed seed_text g)) ;;
  color <- or_string (Opts.color opts) createColor ;;
  bgcolor <- or_string (Opts.bgcolor opts) createColor ;;
  spotcolor <- or_string (Opts.spotcolor opts) createColor ;;
  imageData <- createImageData size ;;
  ret (Icon.make size scale seed_text color bgcolor spotcolor imageData).

Definition createIcon (opts : option Opts.t) (entropy : string)
  : M (Outcome Canvas.t) :=
  l <- createIcon_locals opts entropy ;;
  imageData <<- ret (Icon.imageData l) ;;
  ret (Value (createCanvas imageData (Icon.color l) (Icon.scale l)
                (Icon.bgcolor l) (Icon.spotcolor l))).

End Assembly.

(** ** A concrete platform: x86-64 Linux *)

(** [char] is [signed char]. *)
Definition signed_char_value (c : ascii) : Z :=
  let n := Z.of_N (N_of_ascii c) in
  if n <? 128 then n else n - 256.

Definition decimal (n : Z) : string :=
  NilZero.string_of_uint (N.to_uint (Z.to_N n)).

(** [std::to_string(double)] is [sprintf] with ["%f"]: six decimals, the
    exact value rounded to the nearest, ties to even. *)
Definition to_string_f (v : Number) : string :=
  let n := Z.abs (Qnum v) * 1000000 in
  let d := Zpos (Qden v) in
  let q := n / d in
  let r := n mod d in
  let q := if 2 * r <? d then q
           else if d <? 2 * r then q + 1
           else if Z.even q then q else q + 1 in
  let sign := if Qnum v <? 0 then "-"%string else EmptyString in
  let int_part := decimal (q / 1000000) in
  let frac_part := substring 1 6 (decimal (1000000 + q mod 1000000)) in
  (sign ++ int_part ++ "." ++ frac_part)%string.

#[export] Instance linux_x86_64 : Platform := {
  char_value := signed_char_value;
  to_string := to_string_f
}.

(** ** The stream of draws *)

(** The generator as [main] constructs it: [m_seed { 0, 0, 0, 0 }]. *)
Definition zero_state : PseudorandomNumberGenerator :=
  mkPRNG (Number.of_int 0) (Number.of_int 0) (Number.of_int 0)
    (Number.of_int 0).

(** The generator after one more call of [generate]. *)
Definition advance (g : PseudorandomNumberGenerator)
  : PseudorandomNumberGenerator := snd (generate g).

(** The generator after [n] calls of [generate]. *)
Fixpoint after (n : nat) (g : PseudorandomNumberGenerator)
  : PseudorandomNumberGenerator :=
  match n with
  | O => g
  | S n' => after n' (advance g)
  end.

(** The values of the next [n] calls of [generate], in order. *)
Fixpoint draws (n : nat) (g : PseudorandomNumberGenerator) : list Number :=
  match n with
  | O => []
  | S n' => fst (generate g) :: draws n' (advance g)
  end.

(** The 32-bit patterns of the four state words. *)
Definition word_bits (g : PseudorandomNumberGenerator) : list Z :=
  map Number.bits (words g).

(** ** The operations as the specification words them *)

Module Ref.

Definition shl32 (u n : Z) : Z := Z.shiftl u n mod 4294967296.

(** [u >>> n] *)
Definition lsr32 (u n : Z) : Z := Z.shiftr u n.

(** [u >> n]: the pattern read as a signed integer, shifted with its
    sign, and stored back. *)
Definition asr32 (u n : Z) : Z :=
  Z.shiftr (Number.int32_of_bits u) n mod 4294967296.

Definition t_word (x : Z) : Z := Z.lxor x (shl32 x 11).

(** [w XOR (w >>> 19) XOR t XOR (t >>> 8)] *)
Definition w_logical (x w : Z) : Z :=
  let t := t_word x in
  Z.lxor (Z.lxor (Z.lxor w (lsr32 w 19)) t) (lsr32 t 8).

(** [w XOR (w >> 19) XOR t XOR (t >> 8)] *)
Definition w_arithmetic (x w : Z) : Z :=
  let t := t_word x in
  Z.lxor (Z.lxor (Z.lxor w (asr32 w 19)) t) (asr32 t 8).

(** [state[k] = v] on the four words. *)
Definition store (st : list Z) (k : nat) (v : Z) : list Z :=
  firstn k st ++ v :: skipn (S k) st.

(** The seeding as the specification words it: for the character at
    index [i] with code [c], word [i mod 4] becomes
    [(word * 31 + c) mod 2^32]. *)
Fixpoint seed_from (code : ascii -> Z) (i : nat) (text : string)
  (st : list Z) : list Z :=
  match text with
  | EmptyString => st
  | String c rest =>
      let k := (i mod 4)%nat in
      seed_from code (S i) rest
        (store st k ((nth k st 0 * 31 + code c) mod 4294967296))
  end.

Definition seed (code : ascii -> Z) (text : string) : list Z :=
  seed_from code 0 text [0; 0; 0; 0].

(** The six draws of one colour: [H], [S], [L1] to [L4]. *)
Definition color_of_draws {platform : Platform} (d : list Number)
  : string :=
  match d with
  | [h; s; l1; l2; l3; l4] =>
      ("hsl("
       ++ to_string (Number.floor (Number.mul h (Number.of_int 360)))
       ++ ","
       ++ (to_string (Number.add (Number.mul s (Number.of_int 60))
                        (Number.of_int 40)) ++ "%")
       ++ ","
       ++ (to_string
             (Number.mul
                (Number.add (Number.add (Number.add l1 l2) l3) l4)
                (Number.of_int 25)) ++ "%")
       ++ ")")%string
  | _ => EmptyString
  end.

(** The cell of one draw: [floor(draw * 2.3)]. *)
Definition cell_of_draw (r : Number) : Number :=
  Number.floor (Number.mul r Number.lit_2_3).

End Ref.

(** The value of a finite binary64 number of the standard library's
    specification of IEEE 754. *)
Definition binary64_value (f : spec_float) : Q :=
  match f with
  | S754_finite s m e =>
      let v := if s then Z.neg m else Z.pos m in
      if 0 <=? e then inject_Z (v * 2 ^ e) else v # (2 ^ Z.to_pos (- e))
  | _ => 0
  end.

(** ** Auxiliary definitions of the proofs *)

(** A generator whose four words hold integers. *)
Definition state_of (a b c d : Z) : PseudorandomNumberGenerator :=
  mkPRNG (Number.of_int a) (Number.of_int b) (Number.of_int c)
    (Number.of_int d).

(** The update of one word in [seed], on an integer word:
    [((s << 5) - s) + c]. *)
Definition seed_update (z c : Z) : Z :=
  Number.int32_shl (Number.to_int32 (Number.of_int z)) 5 - z + c.

(** [ceil(size / 2)] on integers. *)
Definition dataWidth_of (size : Z) : Z := (size + 1) / 2.

(** The options with another size. *)
Definition with_size (o : Opts.t) (size : option Z) : Opts.t :=
  Opts.make size (Opts.scale o) (Opts.seed o) (Opts.color o)
    (Opts.bgcolor o) (Opts.spotcolor o).

(** What [createIcon] hands on from its locals: the canvas of the grid, when
    there is one. *)
Definition canvas_of (l : Icon.t) : Outcome Canvas.t :=
  match Icon.imageData l with
  | Value imageData =>
      Value (createCanvas imageData (Icon.color l) (Icon.scale l)
               (Icon.bgcolor l) (Icon.spotcolor l))
  | Undefined => Undefined
  end.

(** An integer cell value from 0 to 4. *)
Definition small_cell (c : Number) : Prop :=
  exists k : Z, 0 <= k <= 4 /\ c = Number.of_int k.

(** The draws an optional colour costs: none when it is supplied and not
    empty. *)
Definition color_draws (c : option string) : nat :=
  if truthy c then 0%nat else 6%nat.

(** The text of an optional string, and what [a || b] resolves it to. *)
Definition supplied (c : option string) : string :=
  match c with Some s => s | None => EmptyString end.

Definition resolve (c : option string) (default : string) : string :=
  if truthy c then supplied c else default.

(** ** Definitions of the further properties *)

(** Java's [String.hashCode] on a sequence of character values, kept in 32
    bits: [h = 31 * h + c] from [h = 0]. *)
Definition hashCode (codes : list Z) : Z :=
  fold_left (fun h c => (h * 31 + c) mod 4294967296) codes 0.


(** A [Number] that holds a signed 32-bit integer. *)
Definition is_int32 (v : Number) : Prop :=
  exists z : Z, -2147483648 <= z < 2147483648 /\ v = Number.of_int z.

(** The three numbers of [createColor]: [floor(rand() * 360)],
    [(rand() * 60) + 40] and [(rand() + rand() + rand() + rand()) * 25]. *)
Definition hue (r : Number) : Number :=
  Number.floor (Number.mul r (Number.of_int 360)).

Definition saturation (r : Number) : Number :=
  Number.add (Number.mul r (Number.of_int 60)) (Number.of_int 40).

Definition lightness (l1 l2 l3 l4 : Number) : Number :=
  Number.mul (Number.add (Number.add (Number.add l1 l2) l3) l4)
    (Number.of_int 25).

(** A rectangle the canvas has filled: position, extent and the
    [fillStyle] in force at the call of [fillRect]. *)
Definition PaintedRect : Type := (Z * Z * Z * Z * string)%type.

(** The rectangles a sequence of calls fills, in order, from the
    [fillStyle] in force before the first call. *)
Fixpoint painted (style : string) (calls : list CanvasCall)
  : list PaintedRect :=
  match calls with
  | [] => []
  | fillStyle s :: rest => painted s rest
  | fillRect x y w h :: rest => (x, y, w, h, style) :: painted style rest
  end.

(** The block of cell [i] of a grid [width] cells wide: nothing for a cell
    0, else the square at column [i mod width] and row [i / width], in
    [color] for a cell 1 and in [spotcolor] otherwise. *)
Definition block_of (width scale : Z) (color spotcolor : string)
  (entry : nat * Number) : list PaintedRect :=
  let (i, cell) := entry in
  if Qeq_bool cell 0 then []
  else [(Z.of_nat i mod width * scale, Z.of_nat i / width * scale, scale,
         scale, if Qeq_bool cell 1 then color else spotcolor)].

(** A rectangle within a canvas. *)
Definition inside (c : Canvas.t) (r : PaintedRect) : Prop :=
  let '(x, y, w, h, _) := r in
  0 <= x /\ x + w <= Canvas.width c /\ 0 <= y /\ y + h <= Canvas.height c.

(** * Properties *)

(** ** Number: conversions and bit patterns *)

Lemma mod_eq_of_diff (a b k m : Z) : a = b + k * m -> a mod m = b mod m.
Proof. intros ->. apply Z_mod_plus_full. Qed.

Lemma to_int64_of_int (z : Z) : Number.to_int64 (Number.of_int z) = z.
Proof. unfold Number.to_int64, Number.of_int, inject_Z; simpl. apply Z.quot_1_r. Qed.

Lemma land_ones32 (z : Z) : Z.land z 4294967295 = z mod 4294967296.
Proof. change 4294967295 with (Z.ones 32). rewrite Z.land_ones by lia. reflexivity. Qed.

Lemma bits_of_int (z : Z) : Number.bits (Number.of_int z) = z mod 4294967296.
Proof. unfold Number.bits. rewrite to_int64_of_int. apply land_ones32. Qed.

Lemma bits_range (v : Number) : 0 <= Number.bits v < 4294967296.
Proof. unfold Number.bits. rewrite land_ones32. apply Z.mod_pos_bound. lia. Qed.

Lemma int32_of_bits_mod (u : Z) : Number.int32_of_bits u mod 4294967296 = u mod 4294967296.
Proof.
  unfold Number.int32_of_bits. destruct (u <? 2147483648); [reflexivity|].
  apply mod_eq_of_diff with (k := -1). lia.
Qed.

Lemma int32_of_bits_range (u : Z) :
  0 <= u < 4294967296 -> -2147483648 <= Number.int32_of_bits u < 2147483648.
Proof.
  intros H. unfold Number.int32_of_bits.
  destruct (Z.ltb_spec u 2147483648); lia.
Qed.

Lemma to_int32_mod (v : Number) : Number.to_int32 v mod 4294967296 = Number.bits v.
Proof.
  unfold Number.to_int32. rewrite int32_of_bits_mod.
  apply Z.mod_small, bits_range.
Qed.

Lemma to_int32_of_int (z : Z) :
  Number.to_int32 (Number.of_int z) = Number.int32_of_bits (z mod 4294967296).
Proof. unfold Number.to_int32. now rewrite bits_of_int. Qed.

Lemma land_lxor_distr (a b c : Z) :
  Z.land (Z.lxor a b) c = Z.lxor (Z.land a c) (Z.land b c).
Proof.
  apply Z.bits_inj'. intros n _.
  rewrite Z.land_spec, !Z.lxor_spec, !Z.land_spec.
  destruct (Z.testbit a n), (Z.testbit b n), (Z.testbit c n); reflexivity.
Qed.

Lemma bits_xor (a b : Number) :
  Number.bits (Number.xor a b) = Z.lxor (Number.bits a) (Number.bits b).
Proof.
  unfold Number.xor. rewrite bits_of_int, <- land_ones32.
  rewrite land_lxor_distr, !land_ones32, !to_int32_mod. reflexivity.
Qed.

Lemma bits_shr (a : Number) (n : Z) :
  Number.bits (Number.shr a n) = Ref.asr32 (Number.bits a) n.
Proof. unfold Number.shr, Ref.asr32. now rewrite bits_of_int. Qed.

Lemma bits_shl (a : Number) (n : Z) :
  0 <= n -> Number.bits (Number.shl a n) = Ref.shl32 (Number.bits a) n.
Proof.
  intros Hn. unfold Number.shl, Number.int32_shl, Ref.shl32.
  rewrite bits_of_int, int32_of_bits_mod, land_ones32, Z.mod_mod by lia.
  rewrite !Z.shiftl_mul_pow2 by lia.
  rewrite <- (to_int32_mod a).
  rewrite (Z.mul_mod_idemp_l) by lia. reflexivity.
Qed.

(** ** The rounded product by 2.3 *)

Lemma round53_near (n : Z) :
  0 <= n < 2 ^ 85 -> n - 2 ^ 31 <= Number.round53 n <= n + 2 ^ 31.
Proof.
  intros [Hn0 Hn]. unfold Number.round53.
  destruct (Z.leb_spec (Z.log2 n - 52) 0) as [He|He]; [lia|].
  set (e := Z.log2 n - 52) in *.
  assert (Hpos : 0 < n) by (destruct (Z.eq_dec n 0); [subst; cbn in e; lia|lia]).
  assert (He32 : e <= 32).
  { assert (Z.log2 n < 85) by (apply Z.log2_lt_pow2; lia). lia. }
  rewrite Z.shiftr_div_pow2, Z.land_ones, !Z.shiftl_mul_pow2 by lia.
  rewrite Z.mul_1_l.
  assert (Hee : 2 ^ e = 2 * 2 ^ (e - 1)).
  { replace e with (Z.succ (e - 1)) at 1 by lia. rewrite Z.pow_succ_r by lia. reflexivity. }
  assert (Hh : 0 < 2 ^ (e - 1) <= 2 ^ 31).
  { split; [apply Z.pow_pos_nonneg; lia|apply Z.pow_le_mono_r; lia]. }
  pose proof (Z.div_mod n (2 ^ e) ltac:(lia)) as Ediv.
  pose proof (Z.mod_pos_bound n (2 ^ e) ltac:(lia)) as Hr.
  set (q := n / 2 ^ e) in *. set (r := n mod 2 ^ e) in *.
  set (h := 2 ^ (e - 1)) in *.
  destruct (Z.ltb_spec r h); [nia|].
  destruct (Z.ltb_spec h r); [nia|].
  destruct (Z.even q); nia.
Qed.

Lemma draw_remainder (u : Z) :
  0 < u < 4294967296 -> 1 <= (23 * u) mod 21474836480.
Proof.
  intros Hu.
  pose proof (Z.mod_pos_bound (23 * u) 21474836480 ltac:(lia)) as Hm.
  destruct (Z.eq_dec ((23 * u) mod 21474836480) 0) as [E|]; [|lia].
  apply Z.mod_divide in E; [|lia].
  apply Z.gauss in E; [|reflexivity].
  apply Z.divide_pos_le in E; lia.
Qed.

(** The cell of the draw [u / 2^31]: the rounded product by the double 2.3
    has the floor of the exact product by 23/10. *)
Lemma cell_of_draw_closed (u : Z) :
  0 <= u < 4294967296 ->
  Ref.cell_of_draw (u # 2147483648) = Number.of_int (23 * u / 21474836480).
Proof.
  intros Hu. unfold Ref.cell_of_draw, Number.floor. f_equal.
  unfold Number.mul, Number.fl, Number.lit_2_3, Qmult, Qfloor.
  cbn [Qnum Qden].
  change (Z.pos (2147483648 * 2251799813685248)) with (2 ^ 82).
  destruct (Z.eq_dec u 0) as [->|Hne]; [reflexivity|].
  rewrite Z.sgn_pos, Z.abs_eq, Z.mul_1_l by lia.
  pose proof (round53_near (u * 5179139571476070) ltac:(lia)) as Hr.
  pose proof (draw_remainder u ltac:(lia)) as Hrem.
  pose proof (Z.div_mod (23 * u) 21474836480 ltac:(lia)) as Ediv.
  pose proof (Z.mod_pos_bound (23 * u) 21474836480 ltac:(lia)) as Hm.
  set (R := Number.round53 _) in *.
  set (K := 23 * u / 21474836480) in *.
  set (rem := (23 * u) mod 21474836480) in *.
  change (2 ^ 31) with 2147483648 in Hr.
  change (2 ^ 82) with 4835703278458516698824704.
  symmetry. apply Z.div_unique with (r := R - K * 4835703278458516698824704).
  - left. lia.
  - lia.
Qed.

(** ** generate: the value and the new state *)

Lemma unsignedShiftRight_0 (v : Number) :
  unsignedShiftRight v 0 = Number.of_int (Number.bits v).
Proof.
  unfold unsignedShiftRight, Number.to_uint32, Number.shr.
  rewrite to_int64_of_int, Z.shiftr_0_r, to_int32_mod. reflexivity.
Qed.

(** The value [generate] returns, from the fourth word it stores. *)
Lemma generate_value (g : PseudorandomNumberGenerator) :
  fst (generate g) = Number.bits (m_seed3 (advance g)) # 2147483648.
Proof.
  unfold advance, generate; cbn [fst snd m_seed set_m_seed m_seed3].
  rewrite unsignedShiftRight_0.
  unfold Number.div, Qdiv, Qmult, Qinv, Number.of_int, inject_Z; cbn.
  f_equal. lia.
Qed.

Lemma advance_words (g : PseudorandomNumberGenerator) :
  m_seed0 (advance g) = m_seed1 g /\
  m_seed1 (advance g) = m_seed2 g /\
  m_seed2 (advance g) = m_seed3 g.
Proof. repeat split. Qed.

Lemma advance_bits (g : PseudorandomNumberGenerator) :
  Number.bits (m_seed3 (advance g))
  = Ref.w_arithmetic (Number.bits (m_seed0 g)) (Number.bits (m_seed3 g)).
Proof.
  unfold advance, generate; cbn [fst snd m_seed set_m_seed m_seed3 m_seed0].
  unfold Ref.w_arithmetic, Ref.t_word.
  rewrite !bits_xor, !bits_shr, !bits_xor, bits_shl by lia. reflexivity.
Qed.

Lemma generate_range (g : PseudorandomNumberGenerator) :
  (0 <= fst (generate g))%Q /\ (fst (generate g) < 2)%Q.
Proof.
  rewrite generate_value.
  pose proof (bits_range (m_seed3 (advance g))) as H.
  unfold Qle, Qlt; cbn [Qnum Qden]. lia.
Qed.

Lemma advance_zero : advance zero_state = zero_state.
Proof. reflexivity. Qed.

Lemma after_zero (n : nat) : after n zero_state = zero_state.
Proof.
  induction n as [|n IH]; [reflexivity|].
  cbn [after]. rewrite advance_zero. exact IH.
Qed.

Section SeedReset.
Context {platform : Platform}.

Lemma seed_reset (text : string) (g g' : PseudorandomNumberGenerator) :
  seed text g = seed text g'.
Proof. reflexivity. Qed.

Lemma seed_empty (g : PseudorandomNumberGenerator) :
  seed "" g = zero_state.
Proof. reflexivity. Qed.
End SeedReset.

(** ** generate: the shifts, the range, the fixed point *)

Lemma asr32_19 (u : Z) :
  0 <= u < 4294967296 ->
  Ref.asr32 u 19
  = Ref.lsr32 u 19 + (if u <? 2147483648 then 0 else 4294959104).
Proof.
  intros Hu. unfold Ref.asr32, Ref.lsr32, Number.int32_of_bits.
  rewrite !Z.shiftr_div_pow2 by lia. change (2 ^ 19) with 524288.
  destruct (Z.ltb_spec u 2147483648); Z.div_mod_to_equations; lia.
Qed.

Lemma asr32_8 (u : Z) :
  0 <= u < 4294967296 ->
  Ref.asr32 u 8
  = Ref.lsr32 u 8 + (if u <? 2147483648 then 0 else 4278190080).
Proof.
  intros Hu. unfold Ref.asr32, Ref.lsr32, Number.int32_of_bits.
  rewrite !Z.shiftr_div_pow2 by lia. change (2 ^ 8) with 256.
  destruct (Z.ltb_spec u 2147483648); Z.div_mod_to_equations; lia.
Qed.

Lemma t_word_range (v : Number) :
  0 <= Ref.t_word (Number.bits v) < 4294967296.
Proof.
  unfold Ref.t_word. rewrite <- bits_shl, <- bits_xor by lia.
  apply bits_range.
Qed.

(** C2, amended: in every [generate] step, with [t = x XOR (x << 11)], the
    new fourth word is [w XOR (w >> 19) XOR t XOR (t >> 8)] on 32-bit
    patterns, where [>>] is the shift of the word read as a signed 32-bit
    integer: the zero-filling shift [>>>] plus, when bit 31 of the shifted
    word is set, that bit copied into the positions the shift frees
    ([0xFFFFE000] for 19, [0xFF000000] for 8).  [t] and the new word stay
    within 32 bits. *)
Theorem generate_fourth_word (g : PseudorandomNumberGenerator) :
  let x := Number.bits (m_seed0 g) in
  let w := Number.bits (m_seed3 g) in
  let t := Z.lxor x (Ref.shl32 x 11) in
  let w' := Number.bits (m_seed3 (snd (generate g))) in
  w' = Z.lxor (Z.lxor (Z.lxor w (Ref.asr32 w 19)) t) (Ref.asr32 t 8) /\
  Ref.asr32 w 19
  = Ref.lsr32 w 19 + (if w <? 2147483648 then 0 else 4294959104) /\
  Ref.asr32 t 8
  = Ref.lsr32 t 8 + (if t <? 2147483648 then 0 else 4278190080) /\
  0 <= t < 4294967296 /\
  0 <= w' < 4294967296.
Proof.
  cbv zeta. split; [apply advance_bits|].
  split; [apply asr32_19, bits_range|].
  split; [apply asr32_8, t_word_range|].
  split; [apply t_word_range|apply bits_range].
Qed.

Section Generator.
Context {platform : Platform}.

(** C3: for every seed text and every number of earlier calls, the value
    [generate] returns is the fourth word it has just stored, read as an
    unsigned 32-bit integer, divided by [2^31]; it lies in [[0, 2)]. *)
Theorem generate_in_range (text : string) (n : nat)
  (g : PseudorandomNumberGenerator) :
  let gn := after n (seed text g) in
  let v := fst (generate gn) in
  let w := Number.bits (m_seed3 (snd (generate gn))) in
  v = Number.div (Number.of_int w) (Number.of_int 2147483648) /\
  0 <= w < 4294967296 /\
  (0 <= v)%Q /\ (v < 2)%Q.
Proof.
  cbv zeta. set (gn := after n (seed text g)).
  split; [|split; [apply bits_range|apply generate_range]].
  change (snd (generate gn)) with (advance gn).
  rewrite generate_value.
  unfold Number.div, Qdiv, Qmult, Qinv, Number.of_int, inject_Z.
  cbn [Qnum Qden]. f_equal. lia.
Qed.

(** C5: [seed] on the empty text leaves the state [[0,0,0,0]]; from there
    every call of [generate], after any number of calls, returns 0 and
    leaves the state all zero. *)
Theorem empty_seed_fixed_point (n : nat) (g : PseudorandomNumberGenerator) :
  seed "" g = zero_state /\
  word_bits (seed "" g) = [0; 0; 0; 0] /\
  let gn := after n (seed "" g) in
  gn = zero_state /\
  (fst (generate gn) == 0)%Q /\
  snd (generate gn) = zero_state.
Proof.
  rewrite seed_empty. cbv zeta. rewrite after_zero.
  repeat split.
Qed.
End Generator.

(** [generate] reads the 32-bit patterns of the words only. *)
Lemma generate_reads_bits (g g' : PseudorandomNumberGenerator) :
  word_bits g = word_bits g' ->
  fst (generate g) = fst (generate g') /\
  word_bits (advance g) = word_bits (advance g').
Proof.
  unfold word_bits, words; cbn [map]. intros E.
  injection E as E0 E1 E2 E3.
  assert (Ew : Number.bits (m_seed3 (advance g))
               = Number.bits (m_seed3 (advance g')))
    by (rewrite !advance_bits; congruence).
  split.
  - rewrite !generate_value. now rewrite Ew.
  - destruct (advance_words g) as (-> & -> & ->).
    destruct (advance_words g') as (-> & -> & ->).
    congruence.
Qed.

(** ** generate: bit 31 of the new word *)

(** With the sign-propagating shifts, the new fourth word has bit 31
    clear. *)
Lemma lxor_high_bit (a b : Z) :
  0 <= a < 4294967296 -> 0 <= b < 4294967296 ->
  0 <= Z.lxor a b < 4294967296 /\
  (Z.lxor a b <? 2147483648) = Bool.eqb (a <? 2147483648) (b <? 2147483648).
Proof.
  intros Ha Hb.
  assert (Hbit : forall u, 0 <= u < 4294967296 ->
            Z.testbit u 31 = negb (u <? 2147483648)).
  { intros u Hu. rewrite Z.testbit_eqb by lia. change (2 ^ 31) with 2147483648.
    destruct (Z.ltb_spec u 2147483648).
    - rewrite Z.div_small by lia. reflexivity.
    - replace (u / 2147483648) with 1 by (Z.div_mod_to_equations; lia).
      reflexivity. }
  assert (Hr : 0 <= Z.lxor a b < 4294967296).
  { split; [apply Z.lxor_nonneg; lia|].
    destruct (Z.eq_dec (Z.lxor a b) 0) as [->|Hne]; [lia|].
    change 4294967296 with (2 ^ 32). apply Z.log2_lt_pow2.
    - assert (0 <= Z.lxor a b) by (apply Z.lxor_nonneg; lia). lia.
    - eapply Z.le_lt_trans; [apply Z.log2_lxor; lia|].
      apply Z.max_lub_lt.
      + destruct (Z.eq_dec a 0) as [->|]; [cbn; lia|].
        apply Z.log2_lt_pow2; lia.
      + destruct (Z.eq_dec b 0) as [->|]; [cbn; lia|].
        apply Z.log2_lt_pow2; lia. }
  split; [exact Hr|].
  pose proof (Hbit _ Hr) as E. rewrite Z.lxor_spec, !Hbit in E by assumption.
  destruct (Z.lxor a b <? 2147483648), (a <? 2147483648), (b <? 2147483648);
    cbn in *; congruence.
Qed.

Lemma asr32_high_bit (u n : Z) :
  0 <= u < 4294967296 -> 0 <= n ->
  0 <= Ref.asr32 u n < 4294967296 /\
  (Ref.asr32 u n <? 2147483648) = (u <? 2147483648).
Proof.
  intros Hu Hn. unfold Ref.asr32, Number.int32_of_bits.
  assert (Hp : 0 < 2 ^ n) by (apply Z.pow_pos_nonneg; lia).
  rewrite Z.shiftr_div_pow2 by lia.
  destruct (Z.ltb_spec u 2147483648) as [Hlt|Hge].
  - assert (0 <= u / 2 ^ n <= u).
    { split; [apply Z.div_pos; lia|].
      apply Z.div_le_upper_bound; [lia|nia]. }
    rewrite Z.mod_small by lia. split; [lia|].
    destruct (Z.ltb_spec (u / 2 ^ n) 2147483648); lia.
  - assert (-2147483648 <= (u - 4294967296) / 2 ^ n < 0).
    { split.
      - apply Z.div_le_lower_bound; [lia|nia].
      - apply Z.div_lt_upper_bound; lia. }
    rewrite (mod_eq_of_diff _ ((u - 4294967296) / 2 ^ n + 4294967296) (-1))
      by lia.
    rewrite Z.mod_small by lia. split; [lia|].
    destruct (Z.ltb_spec ((u - 4294967296) / 2 ^ n + 4294967296) 2147483648);
      lia.
Qed.

Lemma advance_high_bit_clear (g : PseudorandomNumberGenerator) :
  0 <= Number.bits (m_seed3 (advance g)) < 2147483648.
Proof.
  rewrite advance_bits. unfold Ref.w_arithmetic.
  pose proof (bits_range (m_seed3 g)) as Hw.
  pose proof (t_word_range (m_seed0 g)) as Ht.
  set (w := Number.bits (m_seed3 g)) in *.
  set (t := Ref.t_word (Number.bits (m_seed0 g))) in *.
  destruct (asr32_high_bit w 19 Hw ltac:(lia)) as (Hw1 & Ew).
  destruct (asr32_high_bit t 8 Ht ltac:(lia)) as (Ht1 & Et).
  destruct (lxor_high_bit _ _ Hw Hw1) as (H1 & E1).
  destruct (lxor_high_bit _ _ H1 Ht) as (H2 & E2).
  destruct (lxor_high_bit _ _ H2 Ht1) as (H3 & E3).
  rewrite E2, E1, Ew, Et in E3.
  destruct (w <? 2147483648), (t <? 2147483648); cbn in E3;
    apply Z.ltb_lt in E3; lia.
Qed.

(** Hence every value of [generate] is below 1, and every cell at most 2. *)
Lemma generate_below_one (g : PseudorandomNumberGenerator) :
  (0 <= fst (generate g))%Q /\ (fst (generate g) < 1)%Q.
Proof.
  rewrite generate_value.
  pose proof (advance_high_bit_clear g) as H.
  unfold Qle, Qlt; cbn [Qnum Qden]. lia.
Qed.

Lemma cell_at_most_two (g : PseudorandomNumberGenerator) :
  exists k : Z,
    0 <= k <= 2 /\ Ref.cell_of_draw (fst (generate g)) = Number.of_int k.
Proof.
  rewrite generate_value.
  pose proof (advance_high_bit_clear g) as Hu.
  rewrite cell_of_draw_closed by lia.
  eexists; split; [|reflexivity].
  Z.div_mod_to_equations. lia.
Qed.

(** ** seed: the reference seeding *)

Lemma add_sub_of_int (x y z : Z) :
  Number.add (Number.sub (Number.of_int x) (Number.of_int y))
    (Number.of_int z) = Number.of_int (x - y + z).
Proof.
  unfold Number.add, Number.sub, Number.of_int, inject_Z, Qminus, Qplus, Qopp.
  cbn [Qnum Qden]. f_equal. lia.
Qed.

Lemma seed_update_eq (z c : Z) :
  Number.add
    (Number.sub (Number.shl (Number.of_int z) 5) (Number.of_int z))
    (Number.of_int c) = Number.of_int (seed_update z c).
Proof. unfold Number.shl. apply add_sub_of_int. Qed.


Section SeedRefinement.
Context {platform : Platform}.



End SeedRefinement.

(** ** seed: the magnitude of the stored words *)

Lemma int32_shl_range (a n : Z) :
  -2147483648 <= Number.int32_shl a n < 2147483648.
Proof.
  unfold Number.int32_shl. apply int32_of_bits_range.
  rewrite land_ones32. apply Z.mod_pos_bound. lia.
Qed.

Section Magnitude.
Context {platform : Platform}.
Hypothesis char_range : forall c, -128 <= char_value c <= 255.

Lemma seed_loop_magnitude (text : string) :
  forall (i : nat) (a b c d B : Z),
    Z.abs a <= B -> Z.abs b <= B -> Z.abs c <= B -> Z.abs d <= B ->
    exists a' b' c' d',
      seed_loop i text (state_of a b c d) = state_of a' b' c' d' /\
      let B' := B + Z.of_nat (String.length text) * 4294967296 in
      Z.abs a' <= B' /\ Z.abs b' <= B' /\ Z.abs c' <= B' /\ Z.abs d' <= B'.
Proof.
  induction text as [|ch rest IH]; intros i a b c d B Ha Hb Hc Hd.
  - exists a, b, c, d. cbn. split; [reflexivity|lia].
  - cbn [seed_loop].
    assert (Hk : (i mod 4 < 4)%nat) by (apply Nat.mod_upper_bound; lia).
    pose proof (char_range ch) as Hch.
    assert (Hup : forall z, Z.abs z <= B ->
              Z.abs (seed_update z (char_value ch)) <= B + 4294967296).
    { intros z Hz. unfold seed_update.
      pose proof (int32_shl_range (Number.to_int32 (Number.of_int z)) 5).
      lia. }
    destruct (i mod 4)%nat as [|[|[|[|k]]]]; [| | | |lia];
      cbn [m_seed set_m_seed state_of m_seed0 m_seed1 m_seed2 m_seed3];
      rewrite seed_update_eq.
    + destruct (IH (S i) (seed_update a (char_value ch)) b c d
                  (B + 4294967296)) as (a' & b' & c' & d' & E & H);
        [auto|lia|lia|lia|].
      exists a', b', c', d'. split; [exact E|].
      cbn [String.length]. cbv zeta in H |- *. lia.
    + destruct (IH (S i) a (seed_update b (char_value ch)) c d
                  (B + 4294967296)) as (a' & b' & c' & d' & E & H);
        [lia|auto|lia|lia|].
      exists a', b', c', d'. split; [exact E|].
      cbn [String.length]. cbv zeta in H |- *. lia.
    + destruct (IH (S i) a b (seed_update c (char_value ch)) d
                  (B + 4294967296)) as (a' & b' & c' & d' & E & H);
        [lia|lia|auto|lia|].
      exists a', b', c', d'. split; [exact E|].
      cbn [String.length]. cbv zeta in H |- *. lia.
    + destruct (IH (S i) a b c (seed_update d (char_value ch))
                  (B + 4294967296)) as (a' & b' & c' & d' & E & H);
        [lia|lia|lia|auto|].
      exists a', b', c', d'. split; [exact E|].
      cbn [String.length]. cbv zeta in H |- *. lia.
Qed.

(** The words [seed] stores are integers of magnitude at most [2^32]
    times the length of the text. *)
Lemma seed_magnitude (text : string) (g : PseudorandomNumberGenerator) :
  exists a b c d,
    seed text g = state_of a b c d /\
    let B := Z.of_nat (String.length text) * 4294967296 in
    Z.abs a <= B /\ Z.abs b <= B /\ Z.abs c <= B /\ Z.abs d <= B.
Proof.
  destruct (seed_loop_magnitude text 0 0 0 0 0 0)
    as (a & b & c & d & E & H); try (cbn; lia).
  exists a, b, c, d. split; [exact E|exact H].
Qed.
End Magnitude.

(** ** The draws of [createColor] *)

Lemma bind_generate {A : Type} (k : Number -> M A)
  (g : PseudorandomNumberGenerator) :
  bind generate k g = k (fst (generate g)) (advance g).
Proof. unfold bind, advance. destruct (generate g); reflexivity. Qed.

Lemma after_add (n m : nat) (g : PseudorandomNumberGenerator) :
  after (n + m) g = after m (after n g).
Proof. revert g; induction n as [|n IH]; intros g; [reflexivity|apply IH]. Qed.

Lemma draws_length (n : nat) (g : PseudorandomNumberGenerator) :
  length (draws n g) = n.
Proof. revert g; induction n as [|n IH]; intros g; cbn; [|rewrite IH]; reflexivity. Qed.

Section Draws.
Context {platform : Platform}.

Lemma createColor_draws (g : PseudorandomNumberGenerator) :
  createColor g = (Ref.color_of_draws (draws 6 g), after 6 g).
Proof.
  unfold createColor, rand. rewrite !bind_generate. reflexivity.
Qed.

End Draws.

Lemma ceil_half (size : Z) :
  Number.ceil (Number.div (Number.of_int size) (Number.of_int 2))
  = Number.of_int (dataWidth_of size).
Proof.
  unfold Number.ceil, Number.div, Number.of_int, dataWidth_of. f_equal.
  unfold Qceiling, Qfloor, Qdiv, Qmult, Qinv, Qopp, inject_Z. cbn [Qnum Qden].
  change (Z.pos (1 * 2)) with 2. rewrite Z.mul_1_r.
  Z.div_mod_to_equations. lia.
Qed.

Lemma iterations_of_int (z : Z) : iterations (Number.of_int z) = Z.to_nat z.
Proof. unfold iterations, Number.of_int. now rewrite Qceiling_Z. Qed.

(** ** createImageData: the cells drawn and the arrays *)

Lemma draw_cell_eq (g : PseudorandomNumberGenerator) :
  draw_cell g = (Ref.cell_of_draw (fst (generate g)), advance g).
Proof. unfold draw_cell, rand. rewrite bind_generate. reflexivity. Qed.

Lemma draw_cells_first (n : nat) (g : PseudorandomNumberGenerator) :
  draw_cells (S n) 0 [] g = (Undefined, advance g).
Proof.
  cbn [draw_cells]. unfold bind at 1. rewrite draw_cell_eq. reflexivity.
Qed.

Lemma createImageData_positive (size : Z)
  (g : PseudorandomNumberGenerator) :
  0 < size -> createImageData size g = (Undefined, advance g).
Proof.
  intros Hsize. unfold createImageData.
  rewrite ceil_half, !iterations_of_int.
  assert (Hd : 0 < dataWidth_of size)
    by (unfold dataWidth_of; Z.div_mod_to_equations; lia).
  destruct (Z.to_nat size) as [|n] eqn:En; [lia|].
  destruct (Z.to_nat (dataWidth_of size)) as [|d] eqn:Ed; [lia|].
  cbn [push_rows]. unfold bindU at 1. unfold push_row. unfold bindU at 1.
  rewrite iterations_of_int, Ed, draw_cells_first. reflexivity.
Qed.

Lemma createImageData_nonpositive (size : Z)
  (g : PseudorandomNumberGenerator) :
  size <= 0 -> createImageData size g = (Value [], g).
Proof.
  intros Hsize. unfold createImageData. rewrite iterations_of_int.
  replace (Z.to_nat size) with 0%nat by lia. reflexivity.
Qed.

Lemma cell_of_generate (g : PseudorandomNumberGenerator) :
  small_cell (Ref.cell_of_draw (fst (generate g))).
Proof.
  rewrite generate_value.
  pose proof (bits_range (m_seed3 (advance g))) as Hu.
  rewrite cell_of_draw_closed by exact Hu.
  eexists; split; [|reflexivity].
  Z.div_mod_to_equations. lia.
Qed.

(** C8: a cell is drawn as [floor(rand() * 2.3)] with one call of
    [generate], and, any number of cells being drawn in a row, every cell
    drawn is an integer from 0 to 4. *)
Theorem drawn_cell_range (n : nat) (g : PseudorandomNumberGenerator) :
  fst (draw_cell g)
  = Number.floor (Number.mul (fst (generate g)) Number.lit_2_3) /\
  snd (draw_cell g) = snd (generate g) /\
  small_cell (fst (draw_cell g)) /\
  small_cell (fst (draw_cell (after n g))).
Proof.
  rewrite !draw_cell_eq. cbn [fst snd].
  split; [reflexivity|]. split; [reflexivity|].
  split; apply cell_of_generate.
Qed.

(** C6, on the code: for every positive size [createImageData] draws its
    first cell and writes it to [row[0]] of the empty [row], past the end of
    the vector: the behaviour is undefined and no row is built.  (Rows that
    held their cells would be handed to [Array.concat] with elements on both
    sides, which is undefined too.)  Only for sizes that are not positive
    does it return: a grid without cells. *)
Theorem createImageData_positive_size (size : Z)
  (g : PseudorandomNumberGenerator) :
  0 < size ->
  createImageData size g = (Undefined, snd (generate g)) /\
  Array.set (@nil Number) 0 (fst (draw_cell g)) = Undefined /\
  Array.concat [fst (draw_cell g)] [fst (draw_cell g)] = Undefined.
Proof.
  intros Hsize. split; [apply createImageData_positive, Hsize|].
  split; reflexivity.
Qed.

(** ** createIcon *)

Lemma bind_pair {A B : Type} (m : M A) (k : A -> M B)
  (g g' : PseudorandomNumberGenerator) (a : A) :
  m g = (a, g') -> bind m k g = k a g'.
Proof. unfold bind. intros ->. reflexivity. Qed.

Section Consumption.
Context {platform : Platform}.

Lemma or_string_color (c : option string) (g : PseudorandomNumberGenerator) :
  or_string c createColor g
  = (resolve c (Ref.color_of_draws (draws 6 g)), after (color_draws c) g).
Proof.
  unfold resolve, color_draws.
  destruct c as [[|a s]|]; cbn [or_string truthy supplied];
    try apply createColor_draws; reflexivity.
Qed.

Lemma or_string_seed (c : option string) (entropy : string)
  (g : PseudorandomNumberGenerator) :
  or_string c (ret entropy) g = (resolve c entropy, g).
Proof. destruct c as [[|a s]|]; reflexivity. Qed.

(** [createIcon], from the options to the locals at the call of
    [createCanvas]. *)
Lemma createIcon_locals_eq (opts : option Opts.t) (entropy : string)
  (g : PseudorandomNumberGenerator) :
  let o := match opts with Some o => o | None => Opts.empty end in
  let size := or_number (Opts.size o) 8 in
  let text := resolve (Opts.seed o) entropy in
  let g0 := seed text g in
  let n1 := color_draws (Opts.color o) in
  let n2 := (n1 + color_draws (Opts.bgcolor o))%nat in
  let n3 := (n2 + color_draws (Opts.spotcolor o))%nat in
  createIcon_locals opts entropy g
  = (Icon.make size (or_number (Opts.scale o) 4) text
       (resolve (Opts.color o) (Ref.color_of_draws (draws 6 g0)))
       (resolve (Opts.bgcolor o)
          (Ref.color_of_draws (draws 6 (after n1 g0))))
       (resolve (Opts.spotcolor o)
          (Ref.color_of_draws (draws 6 (after n2 g0))))
       (fst (createImageData size (after n3 g0))),
     snd (createImageData size (after n3 g0))).
Proof.
  intros o size text g0 n1 n2 n3.
  unfold createIcon_locals. fold o. fold size.
  rewrite (bind_pair _ _ _ _ _ (or_string_seed _ entropy g)). fold text.
  unfold bind at 1. fold g0.
  rewrite (bind_pair _ _ _ _ _ (or_string_color _ g0)). fold n1.
  rewrite (bind_pair _ _ _ _ _ (or_string_color _ (after n1 g0))).
  rewrite <- after_add. fold n2.
  rewrite (bind_pair _ _ _ _ _ (or_string_color _ (after n2 g0))).
  rewrite <- after_add. fold n3.
  unfold bind, ret. destruct (createImageData size (after n3 g0)).
  reflexivity.
Qed.

(** C7, amended: after seeding, [createIcon] resolves [color], then
    [bgcolor], then [spotcolor]; each colour that is absent or empty is made
    of the next six draws, in the order H, S, L1 to L4, and a colour
    supplied as a text that is not empty costs no draw; the bitmap is drawn
    from the generator after those [6 * (number of colours absent or
    empty)] draws: 18 when all three are. *)
Theorem createIcon_consumption (opts : option Opts.t) (entropy : string)
  (g : PseudorandomNumberGenerator) :
  let o := match opts with Some o => o | None => Opts.empty end in
  let g0 := seed (resolve (Opts.seed o) entropy) g in
  let n1 := color_draws (Opts.color o) in
  let n2 := (n1 + color_draws (Opts.bgcolor o))%nat in
  let n3 := (n2 + color_draws (Opts.spotcolor o))%nat in
  let l := fst (createIcon_locals opts entropy g) in
  Icon.color l
  = resolve (Opts.color o) (Ref.color_of_draws (draws 6 g0)) /\
  Icon.bgcolor l
  = resolve (Opts.bgcolor o) (Ref.color_of_draws (draws 6 (after n1 g0))) /\
  Icon.spotcolor l
  = resolve (Opts.spotcolor o)
      (Ref.color_of_draws (draws 6 (after n2 g0))) /\
  Icon.imageData l = fst (createImageData (Icon.size l) (after n3 g0)) /\
  snd (createIcon_locals opts entropy g)
  = snd (createImageData (Icon.size l) (after n3 g0)) /\
  n3 = (6 * length (filter (fun c => negb (truthy c))
                      [Opts.color o; Opts.bgcolor o; Opts.spotcolor o]))%nat.
Proof.
  cbv zeta. rewrite createIcon_locals_eq. cbn [fst snd Icon.color Icon.bgcolor
    Icon.spotcolor Icon.imageData Icon.size].
  repeat split.
  unfold color_draws. cbn [filter].
  destruct (truthy (Opts.color _)), (truthy (Opts.bgcolor _)),
    (truthy (Opts.spotcolor _)); reflexivity.
Qed.
End Consumption.

Section Resolution.
Context {platform : Platform}.

Lemma createIcon_locals_seeded (o : Opts.t) (e1 e2 : string)
  (g1 g2 : PseudorandomNumberGenerator) :
  truthy (Opts.seed o) = true ->
  fst (createIcon_locals (Some o) e1 g1)
  = fst (createIcon_locals (Some o) e2 g2).
Proof.
  intros H. rewrite !createIcon_locals_eq. cbn [fst].
  unfold resolve. rewrite H.
  rewrite (seed_reset _ g1 g2). reflexivity.
Qed.

Lemma createIcon_from_locals (opts : option Opts.t) (entropy : string)
  (g : PseudorandomNumberGenerator) :
  createIcon opts entropy g
  = (canvas_of (fst (createIcon_locals opts entropy g)),
     snd (createIcon_locals opts entropy g)).
Proof.
  unfold createIcon, bind, bindU, ret, canvas_of.
  destruct (createIcon_locals opts entropy g) as [l g']. cbn [fst snd].
  destruct (Icon.imageData l); reflexivity.
Qed.

(** C1, amended: for every options record whose seed is supplied and not
    empty, two successive calls of [createIcon] with these options give
    the same grid, the same three colour strings and the same canvas,
    whatever the generator held before and whatever the entropy source
    yields. *)
Theorem createIcon_twice (o : Opts.t) (s e1 e2 : string)
  (g : PseudorandomNumberGenerator) :
  Opts.seed o = Some s -> s <> EmptyString ->
  let first := createIcon_locals (Some o) e1 g in
  let second := createIcon_locals (Some o) e2 (snd first) in
  Icon.imageData (fst first) = Icon.imageData (fst second) /\
  Icon.color (fst first) = Icon.color (fst second) /\
  Icon.bgcolor (fst first) = Icon.bgcolor (fst second) /\
  Icon.spotcolor (fst first) = Icon.spotcolor (fst second) /\
  fst (createIcon (Some o) e1 g)
  = fst (createIcon (Some o) e2 (snd (createIcon (Some o) e1 g))).
Proof.
  intros Hs Hne first second.
  assert (Ht : truthy (Opts.seed o) = true)
    by (rewrite Hs; destruct s; [congruence|reflexivity]).
  assert (E : fst first = fst second)
    by (apply createIcon_locals_seeded; exact Ht).
  rewrite E.
  split; [reflexivity|]. split; [reflexivity|]. split; [reflexivity|].
  split; [reflexivity|].
  rewrite !createIcon_from_locals. cbn [fst snd]. fold first.
  fold second. now rewrite E.
Qed.

Lemma createIcon_locals_size (o : Opts.t) (size : option Z)
  (entropy : string) (g : PseudorandomNumberGenerator) :
  or_number (Opts.size o) 8 = or_number size 8 ->
  createIcon_locals (Some o) entropy g
  = createIcon_locals (Some (with_size o size)) entropy g.
Proof.
  intros H. rewrite !createIcon_locals_eq. unfold with_size.
  cbn [Opts.size Opts.scale Opts.seed Opts.color Opts.bgcolor
       Opts.spotcolor].
  rewrite H. reflexivity.
Qed.

(** C9, amended: with a negative size [createIcon] keeps the size, draws no
    cell and returns the canvas, without extent, of a grid without cells;
    a size of 0 is replaced by the default 8 and the call goes on exactly
    as the call with size 8.  Nothing is signalled for either. *)
Theorem createIcon_nonpositive_size (o : Opts.t) (sz : Z) (entropy : string)
  (g : PseudorandomNumberGenerator) :
  Opts.size o = Some sz -> sz <= 0 ->
  let l := fst (createIcon_locals (Some o) entropy g) in
  Icon.size l = (if sz =? 0 then 8 else sz) /\
  (if sz =? 0
   then createIcon (Some o) entropy g
        = createIcon (Some (with_size o (Some 8))) entropy g
   else Icon.imageData l = Value [] /\
        exists c, fst (createIcon (Some o) entropy g) = Value c /\
                  Canvas.width c = 0 /\ Canvas.height c = 0).
Proof.
  intros Hsz Hle l.
  split.
  - unfold l. rewrite createIcon_locals_eq. cbn [fst Icon.size].
    rewrite Hsz. reflexivity.
  - destruct (Z.eqb_spec sz 0) as [->|Hne].
    + rewrite !createIcon_from_locals.
      rewrite (createIcon_locals_size o (Some 8)); [reflexivity|].
      rewrite Hsz. reflexivity.
    + assert (Hd : Icon.imageData l = Value []).
      { unfold l. rewrite createIcon_locals_eq. cbn [fst Icon.imageData].
        rewrite Hsz. unfold or_number.
        destruct (Z.eqb_spec sz 0); [contradiction|].
        rewrite createImageData_nonpositive by lia. reflexivity. }
      split; [exact Hd|].
      rewrite createIcon_from_locals. cbn [fst]. fold l.
      unfold canvas_of. rewrite Hd.
      eexists. split; [reflexivity|]. split; reflexivity.
Qed.

(** C10, on the code: a size supplied as 0 is replaced by the default 8, a
    scale supplied as 0 by the default 4, and nothing is reported; the call
    goes on as the call with size 8.  The grid of 8 rows of 8 cells is not
    produced: [createImageData] writes its first cell past the end of the
    empty [row] and the behaviour is undefined. *)
Theorem createIcon_zero_defaults :
  (forall scale seed color bgcolor spotcolor entropy g,
      let o := Opts.make (Some 0) scale seed color bgcolor spotcolor in
      let o8 := Opts.make (Some 8) scale seed color bgcolor spotcolor in
      let l := fst (createIcon_locals (Some o) entropy g) in
      Icon.size l = 8 /\
      createIcon (Some o) entropy g = createIcon (Some o8) entropy g /\
      Icon.imageData l = Undefined /\
      fst (createIcon (Some o) entropy g) = Undefined) /\
  (forall size seed color bgcolor spotcolor entropy g,
      let o := Opts.make size (Some 0) seed color bgcolor spotcolor in
      Icon.scale (fst (createIcon_locals (Some o) entropy g)) = 4).
Proof.
  split.
  - intros scale sd color bgcolor spotcolor entropy g o o8 l.
    assert (Hd : Icon.imageData l = Undefined).
    { unfold l. rewrite createIcon_locals_eq.
      cbn [fst Icon.imageData o Opts.size or_number Z.eqb].
      rewrite createImageData_positive by lia. reflexivity. }
    split; [unfold l; rewrite createIcon_locals_eq; reflexivity|].
    split.
    + rewrite !createIcon_from_locals.
      rewrite (createIcon_locals_size o (Some 8)); reflexivity.
    + split; [exact Hd|].
      rewrite createIcon_from_locals. cbn [fst]. fold l.
      unfold canvas_of. now rewrite Hd.
  - intros size sd color bgcolor spotcolor entropy g o.
    rewrite createIcon_locals_eq. reflexivity.
Qed.

End Resolution.

(** ** The claims at concrete inputs (x86-64 Linux) *)

Local Open Scope string_scope.

(** The rounded product agrees with the binary64 product of the standard
    library on sample draws. *)
Example mul_2_3_is_binary64 :
  forallb
    (fun u =>
       Qeq_bool
         (Number.mul (u # 2147483648) Number.lit_2_3)
         (binary64_value
            (SFmul 53 1024 (S754_finite false (Z.to_pos u) (-31))
               (S754_finite false 5179139571476070 (-51)))))
    [1; 3; 12345; 199529; 933720556; 1867441113; 2801161669; 3734882225;
     3734882226; 4294967295] = true.
Proof. vm_compute. reflexivity. Qed.

Example seed_a_draws :
  draws 5 (seed "a" zero_state)
  = [199529 # 2147483648; 199529 # 2147483648; 199529 # 2147483648;
     199529 # 2147483648; 407048259 # 2147483648].
Proof. vm_compute. reflexivity. Qed.

Example seed_alphabet_bits :
  word_bits (seed "abcdefghijklmnopqrstuvwxyz0123456789" zero_state)
  = [2627905681; 3480348690; 37752328; 890195337].
Proof. vm_compute. reflexivity. Qed.

Example color_of_seed_a :
  fst (createColor (seed "a" zero_state))
  = "hsl(0.000000,40.005575%,4.745625%)".
Proof. vm_compute. reflexivity. Qed.

Example grid_of_size_2 :
  createImageData 2 zero_state = (Undefined, zero_state).
Proof. vm_compute. reflexivity. Qed.

Example grid_of_negative_size :
  createImageData (-2) (seed "a" zero_state)
  = (Value [], seed "a" zero_state).
Proof. vm_compute. reflexivity. Qed.

Example eighteen_draws :
  snd (createIcon_locals
         (Some (Opts.make (Some (-1)) None (Some "a") None None None))
         "" zero_state)
  = after 18 (seed "a" zero_state).
Proof. vm_compute. reflexivity. Qed.

(** C1, as stated, fails on an explicit empty seed: [opts.seed || ...] takes
    the text of the entropy source, and two calls that draw different texts
    resolve different colours.  The texts are those of [random()] returning
    0.5 (5 * 10^15 in base 16), then 0.25; the size is negative, for which
    [createIcon] returns. *)
Lemma createIcon_empty_seed_differs :
  let o := Opts.make (Some (-1)) None (Some "") None None None in
  let first := createIcon_locals (Some o) "11c37937e08000" zero_state in
  let second := createIcon_locals (Some o) "8e1bc9bf04000" (snd first) in
  Icon.imageData (fst first) = Value [] /\
  Icon.imageData (fst second) = Value [] /\
  Icon.color (fst first) <> Icon.color (fst second).
Proof.
  cbv zeta. split; [vm_compute; reflexivity|].
  split; [vm_compute; reflexivity|].
  apply String.eqb_neq. vm_compute. reflexivity.
Qed.

(** [createIcon_twice] on the seed ["a"], a negative size and a supplied
    background. *)
Lemma createIcon_twice_witness :
  let o := Opts.make (Some (-1)) None (Some "a") None (Some "red") None in
  let first := createIcon_locals (Some o) "11c37937e08000" zero_state in
  let second := createIcon_locals (Some o) "8e1bc9bf04000" (snd first) in
  Opts.seed o = Some "a" /\ "a" <> "" /\
  Icon.imageData (fst first) = Icon.imageData (fst second) /\
  Icon.color (fst first) = Icon.color (fst second).
Proof.
  intros o first second.
  assert (H1 : Opts.seed o = Some "a") by reflexivity.
  assert (H2 : "a" <> "") by discriminate.
  destruct (createIcon_twice o "a" "11c37937e08000" "8e1bc9bf04000"
              zero_state H1 H2) as (Hd & Hc & _).
  exact (conj H1 (conj H2 (conj Hd Hc))).
Defined.

(** C7, as stated, fails on a colour supplied as the empty string:
    [opts.color || createColor()] takes it for absent, draws the six values
    of a colour and resolves [color] to that colour.  The other two colours
    are supplied and the size is negative, so these are all the draws. *)
Lemma createIcon_empty_color_draws :
  let o := Opts.make (Some (-1)) None (Some "a") (Some "") (Some "red")
             (Some "blue") in
  let r := createIcon_locals (Some o) "" zero_state in
  snd r = after 6 (seed "a" zero_state) /\
  snd r <> seed "a" zero_state /\
  Icon.color (fst r) = "hsl(0.000000,40.005575%,4.745625%)" /\
  Icon.color (fst r) <> "".
Proof.
  cbv zeta. split; [vm_compute; reflexivity|].
  split; [vm_compute; discriminate|].
  split; [vm_compute; reflexivity|].
  apply String.eqb_neq. vm_compute. reflexivity.
Qed.

(** C2, as stated, fails after 13 calls on the seed ["a"]: [t] has bit 31
    set, and [t >> 8] fills with ones where [t >>> 8] fills with zeros. *)
Lemma generate_shift_not_logical :
  let g := after 13 (seed "a" zero_state) in
  Number.bits (m_seed3 (snd (generate g)))
  <> Ref.w_logical (Number.bits (m_seed0 g)) (Number.bits (m_seed3 g)).
Proof. vm_compute. discriminate. Qed.

(** * Further properties *)

Local Close Scope string_scope.

(** ** Number: the bitwise operators *)

Lemma lxor_nonneg_below (a b k : Z) :
  0 < k -> 0 <= a < 2 ^ k -> 0 <= b < 2 ^ k -> 0 <= Z.lxor a b < 2 ^ k.
Proof.
  intros Hk Ha Hb.
  assert (H0 : 0 <= Z.lxor a b) by (apply Z.lxor_nonneg; lia).
  split; [exact H0|].
  destruct (Z.eq_dec (Z.lxor a b) 0) as [->|Hne]; [lia|].
  apply Z.log2_lt_pow2; [lia|].
  eapply Z.le_lt_trans; [apply Z.log2_lxor; lia|].
  apply Z.max_lub_lt.
  - destruct (Z.eq_dec a 0) as [->|]; [cbn; lia|]. apply Z.log2_lt_pow2; lia.
  - destruct (Z.eq_dec b 0) as [->|]; [cbn; lia|]. apply Z.log2_lt_pow2; lia.
Qed.

Lemma lxor_int32 (a b : Z) :
  -2147483648 <= a < 2147483648 -> -2147483648 <= b < 2147483648 ->
  -2147483648 <= Z.lxor a b < 2147483648.
Proof.
  intros Ha Hb. change 2147483648 with (2 ^ 31) in *.
  assert (Hn : forall x, Z.lnot x = - x - 1) by (intros; unfold Z.lnot; lia).
  destruct (Z.le_gt_cases 0 a) as [Pa|Na], (Z.le_gt_cases 0 b) as [Pb|Nb].
  - pose proof (lxor_nonneg_below a b 31 ltac:(lia) ltac:(lia) ltac:(lia)). lia.
  - pose proof (lxor_nonneg_below a (Z.lnot b) 31 ltac:(lia) ltac:(lia)
                  ltac:(rewrite Hn; lia)) as H.
    rewrite Z.lxor_comm, <- Z.lnot_lxor_l, Hn, Z.lxor_comm in H. lia.
  - pose proof (lxor_nonneg_below (Z.lnot a) b 31 ltac:(lia)
                  ltac:(rewrite Hn; lia) ltac:(lia)) as H.
    rewrite <- Z.lnot_lxor_l, Hn in H. lia.
  - pose proof (lxor_nonneg_below (Z.lnot a) (Z.lnot b) 31 ltac:(lia)
                  ltac:(rewrite Hn; lia) ltac:(rewrite Hn; lia)) as H.
    rewrite Z.lxor_lnot_lnot in H. lia.
Qed.

Lemma to_int32_range (v : Number) :
  -2147483648 <= Number.to_int32 v < 2147483648.
Proof. apply int32_of_bits_range, bits_range. Qed.

Lemma shiftr_int32 (a n : Z) :
  0 <= n -> -2147483648 <= a < 2147483648 ->
  -2147483648 <= Z.shiftr a n < 2147483648.
Proof.
  intros Hn Ha. rewrite Z.shiftr_div_pow2 by lia.
  assert (Hp : 0 < 2 ^ n) by (apply Z.pow_pos_nonneg; lia).
  split.
  - apply Z.div_le_lower_bound; [lia|nia].
  - apply Z.div_lt_upper_bound; [lia|nia].
Qed.

Lemma xor_int32 (a b : Number) : is_int32 (Number.xor a b).
Proof.
  eexists; split; [apply lxor_int32; apply to_int32_range|reflexivity].
Qed.

(** X1: whatever doubles the operands hold, [<<] and [>>] (by a count from
    0 to 31) and [^] return a [Number] that holds a signed 32-bit
    integer. *)
Theorem bitwise_results_int32 (a b : Number) (n : Z) :
  0 <= n <= 31 ->
  is_int32 (Number.shl a n) /\ is_int32 (Number.shr a n) /\
  is_int32 (Number.xor a b).
Proof.
  intros Hn. split; [|split].
  - eexists; split; [apply int32_shl_range|reflexivity].
  - eexists; split; [|reflexivity].
    apply shiftr_int32; [lia|apply to_int32_range].
  - apply xor_int32.
Qed.

Lemma asr32_low (u n : Z) :
  0 <= u < 2147483648 -> 0 <= n -> Ref.asr32 u n = Ref.lsr32 u n.
Proof.
  intros Hu Hn. unfold Ref.asr32, Ref.lsr32, Number.int32_of_bits.
  destruct (Z.ltb_spec u 2147483648); [|lia].
  apply Z.mod_small. rewrite Z.shiftr_div_pow2 by lia.
  assert (Hp : 0 < 2 ^ n) by (apply Z.pow_pos_nonneg; lia).
  split; [apply Z.div_pos; lia|].
  apply Z.le_lt_trans with u; [|lia].
  apply Z.div_le_upper_bound; [lia|nia].
Qed.

Lemma asr32_lsr32 (u n : Z) :
  0 <= u < 4294967296 -> 0 <= n <= 32 ->
  Ref.asr32 u n
  = Ref.lsr32 u n + (if u <? 2147483648 then 0 else 4294967296 - 2 ^ (32 - n)).
Proof.
  intros Hu Hn. destruct (Z.ltb_spec u 2147483648) as [Hlt|Hge].
  - rewrite asr32_low by lia. lia.
  - unfold Ref.asr32, Ref.lsr32, Number.int32_of_bits.
    destruct (Z.ltb_spec u 2147483648); [lia|].
    rewrite !Z.shiftr_div_pow2 by lia.
    assert (Hp : 0 < 2 ^ n) by (apply Z.pow_pos_nonneg; lia).
    assert (Hq : 0 < 2 ^ (32 - n)) by (apply Z.pow_pos_nonneg; lia).
    assert (E : 4294967296 = 2 ^ (32 - n) * 2 ^ n).
    { rewrite <- Z.pow_add_r by lia. replace (32 - n + n) with 32 by lia.
      reflexivity. }
    replace (u - 4294967296) with (u + (- 2 ^ (32 - n)) * 2 ^ n) by lia.
    rewrite Z.div_add by lia.
    assert (0 <= u / 2 ^ n < 2 ^ (32 - n)).
    { split; [apply Z.div_pos; lia|apply Z.div_lt_upper_bound; lia]. }
    assert (2 ^ (32 - n) <= 4294967296)
      by (change 4294967296 with (2 ^ 32); apply Z.pow_le_mono_r; lia).
    rewrite (mod_eq_of_diff _ (u / 2 ^ n + - 2 ^ (32 - n) + 4294967296) (-1))
      by lia.
    rewrite Z.mod_small; lia.
Qed.

(** X2: [unsignedShiftRight(number, n)], for a count from 0 to 31, is the
    zero-filling shift [>>>] of the 32-bit pattern of [number] when [n] is 0
    or bit 31 of the pattern is clear; when bit 31 is set it is that shift
    plus ones in the [n] positions freed: [2^32 - 2^(32 - n)] more.  The
    result is within 32 bits. *)
Theorem unsignedShiftRight_shift (v : Number) (n : Z) :
  0 <= n <= 31 ->
  let u := Number.bits v in
  unsignedShiftRight v n
  = Number.of_int
      (Ref.lsr32 u n
       + (if u <? 2147483648 then 0 else 4294967296 - 2 ^ (32 - n))) /\
  0 <= Ref.lsr32 u n
       + (if u <? 2147483648 then 0 else 4294967296 - 2 ^ (32 - n))
    < 4294967296.
Proof.
  intros Hn u. pose proof (bits_range v) as Hb. fold u in Hb.
  rewrite <- asr32_lsr32 by lia.
  split.
  - unfold unsignedShiftRight, Number.to_uint32, Number.shr.
    rewrite to_int64_of_int. reflexivity.
  - apply asr32_high_bit; lia.
Qed.

(** ** generate: the unit interval and the state after four calls *)

(** X3: for every state of the generator, [generate] returns a value in
    [[0, 1)]: the new fourth word is below [2^31]. *)
Theorem generate_unit_interval (g : PseudorandomNumberGenerator) :
  let v := fst (generate g) in
  let w := Number.bits (m_seed3 (snd (generate g))) in
  0 <= w < 2147483648 /\ v = w # 2147483648 /\ (0 <= v)%Q /\ (v < 1)%Q.
Proof.
  cbv zeta. change (snd (generate g)) with (advance g).
  split; [apply advance_high_bit_clear|].
  split; [apply generate_value|apply generate_below_one].
Qed.

Lemma advance_word3_int (g : PseudorandomNumberGenerator) :
  exists z, 0 <= z < 2147483648 /\ m_seed3 (advance g) = Number.of_int z.
Proof.
  pose proof (advance_high_bit_clear g) as Hb.
  unfold advance, generate in *;
    cbn [fst snd m_seed set_m_seed m_seed3 m_seed0] in *.
  set (t := Number.xor (m_seed0 g) _) in *.
  destruct (xor_int32
              (Number.xor (Number.xor (m_seed3 g) (Number.shr (m_seed3 g) 19)) t)
              (Number.shr t 8)) as (z & Hz & E).
  exists z. split; [|exact E].
  rewrite E, bits_of_int in Hb.
  destruct (Z.le_gt_cases 0 z); [lia|].
  rewrite (mod_eq_of_diff z (z + 4294967296) (-1)) in Hb by lia.
  rewrite Z.mod_small in Hb by lia. lia.
Qed.

Lemma after_succ (m : nat) (g : PseudorandomNumberGenerator) :
  after (S m) g = advance (after m g).
Proof.
  revert g. induction m as [|m IH]; intros g; [reflexivity|].
  cbn [after] in *. apply IH.
Qed.

(** X4: after four or more calls of [generate], whatever doubles the state
    held before, the four words hold integers from 0 to [2^31 - 1]. *)
Theorem generate_state_after_four (n : nat) (g : PseudorandomNumberGenerator) :
  (4 <= n)%nat ->
  exists a b c d,
    after n g = state_of a b c d /\
    0 <= a < 2147483648 /\ 0 <= b < 2147483648 /\
    0 <= c < 2147483648 /\ 0 <= d < 2147483648.
Proof.
  intros Hn.
  destruct n as [|[|[|[|n]]]]; try lia.
  rewrite !after_succ.
  set (g0 := after n g).
  destruct (advance_word3_int g0) as (a & Ha & Ea).
  destruct (advance_word3_int (advance g0)) as (b & Hb & Eb).
  destruct (advance_word3_int (advance (advance g0))) as (c & Hc & Ec).
  destruct (advance_word3_int (advance (advance (advance g0))))
    as (d & Hd & Ed).
  exists a, b, c, d. split; [|lia].
  set (g4 := advance (advance (advance (advance g0)))) in *.
  destruct (advance_words (advance (advance (advance g0)))) as (E0 & E1 & E2).
  destruct (advance_words (advance (advance g0))) as (F0 & F1 & F2).
  destruct (advance_words (advance g0)) as (G0 & G1 & G2).
  fold g4 in E0, E1, E2.
  unfold state_of.
  destruct g4 as [w0 w1 w2 w3]; cbn [m_seed0 m_seed1 m_seed2 m_seed3] in *.
  f_equal; congruence.
Qed.

(** X5: [generate] reads the 32-bit patterns of the state words only: two
    generators whose words have the same patterns return the same value and
    are left with words of the same patterns. *)
Theorem generate_depends_on_bits (g g' : PseudorandomNumberGenerator) :
  word_bits g = word_bits g' ->
  fst (generate g) = fst (generate g') /\
  word_bits (snd (generate g)) = word_bits (snd (generate g')).
Proof. intros H. apply generate_reads_bits, H. Qed.

(** ** seed: the hash of every fourth character *)


Section SeedHash.
Context {platform : Platform}.


(** X7: when the value of every [char] lies between -128 and 255, the four
    words [seed] stores are integers of magnitude at most [2^32] times the
    length of the text: below [2^53], where doubles hold integers exactly,
    for every text of fewer than [2^21] characters. *)
Theorem seed_words_bounded (text : string) (g : PseudorandomNumberGenerator) :
  (forall c, -128 <= char_value c <= 255) ->
  exists a b c d,
    seed text g = state_of a b c d /\
    let B := Z.of_nat (String.length text) * 4294967296 in
    Z.abs a <= B /\ Z.abs b <= B /\ Z.abs c <= B /\ Z.abs d <= B.
Proof. intros H. apply seed_magnitude, H. Qed.

End SeedHash.

(** ** createImageData: the cells and the rows *)

Section CellFacts.
Context {platform : Platform}.

(** X8: the cell [floor(rand() * 2.3)], computed in doubles with the
    rounded literal and the rounded product, is the floor of the exact
    product of the draw [w / 2^31] by 23/10: rounding never moves a cell. *)
Theorem cell_is_exact_floor (g : PseudorandomNumberGenerator) :
  let w := Number.bits (m_seed3 (snd (generate g))) in
  Number.floor (Number.mul (fst (generate g)) Number.lit_2_3)
  = Number.of_int (Qfloor ((w # 2147483648) * (23 # 10))).
Proof.
  cbv zeta. change (snd (generate g)) with (advance g).
  pose proof (bits_range (m_seed3 (advance g))) as Hw.
  rewrite generate_value.
  change (Number.floor (Number.mul ?r Number.lit_2_3))
    with (Ref.cell_of_draw r).
  rewrite cell_of_draw_closed by exact Hw. f_equal.
  unfold Qfloor, Qmult. cbn [Qnum Qden].
  change (Z.pos (2147483648 * 10)) with 21474836480.
  f_equal. lia.
Qed.

(** X18: for a size that is not positive [createImageData] makes no call of
    [generate], leaves the generator as it was and returns a grid without
    cells. *)
Theorem createImageData_nonpositive_size (size : Z)
  (g : PseudorandomNumberGenerator) :
  size <= 0 ->
  fst (createImageData size g) = Value [] /\ snd (createImageData size g) = g.
Proof.
  intros H. rewrite createImageData_nonpositive by exact H.
  split; reflexivity.
Qed.

(** X9: every cell drawn, [floor(rand() * 2.3)], is 0, 1 or 2, whatever the
    state of the generator. *)
Theorem drawn_cell_0_1_2 (g : PseudorandomNumberGenerator) :
  let c := fst (draw_cell g) in
  c = Number.of_int 0 \/ c = Number.of_int 1 \/ c = Number.of_int 2.
Proof.
  cbv zeta. rewrite draw_cell_eq. cbn [fst].
  destruct (cell_at_most_two g) as (k & Hk & ->).
  assert (k = 0 \/ k = 1 \/ k = 2) as [->|[->| ->]] by lia; auto.
Qed.

End CellFacts.

(** ** createColor: the three components *)

Lemma round53_exact (m k : Z) :
  0 <= m < 2 ^ 53 -> 0 <= k -> Number.round53 (m * 2 ^ k) = m * 2 ^ k.
Proof.
  intros Hm Hk. unfold Number.round53.
  destruct (Z.leb_spec (Z.log2 (m * 2 ^ k) - 52) 0) as [He|He]; [reflexivity|].
  assert (Hpos : 0 < m).
  { destruct (Z.eq_dec m 0) as [->|]; [cbn in He; lia|lia]. }
  rewrite Z.log2_mul_pow2 in * by lia.
  assert (Z.log2 m < 53) by (apply Z.log2_lt_pow2; lia).
  set (e := k + Z.log2 m - 52) in *.
  assert (E : m * 2 ^ k = (m * 2 ^ (k - e)) * 2 ^ e).
  { rewrite <- Z.mul_assoc, <- Z.pow_add_r by lia. do 2 f_equal. lia. }
  assert (Hp : 0 < 2 ^ e) by (apply Z.pow_pos_nonneg; lia).
  assert (Hmod : (m * 2 ^ k) mod 2 ^ e = 0)
    by (rewrite E; apply Z.mod_mul; lia).
  assert (Hq : (m * 2 ^ k) / 2 ^ e * 2 ^ e = m * 2 ^ k).
  { pose proof (Z.div_mod (m * 2 ^ k) (2 ^ e) ltac:(lia)). lia. }
  cbv zeta.
  rewrite Z.land_ones, Hmod, !Z.shiftl_mul_pow2, Z.shiftr_div_pow2 by lia.
  assert (0 < 1 * 2 ^ (e - 1))
    by (rewrite Z.mul_1_l; apply Z.pow_pos_nonneg; lia).
  destruct (Z.ltb_spec 0 (1 * 2 ^ (e - 1))); [|lia].
  exact Hq.
Qed.

Lemma fl_exact (n : Z) (d : positive) (m k : Z) :
  0 <= m < 2 ^ 53 -> 0 <= k -> n = m * 2 ^ k -> Number.fl (n # d) = n # d.
Proof.
  intros Hm Hk ->. unfold Number.fl. cbn [Qnum Qden]. f_equal.
  assert (0 <= m * 2 ^ k)
    by (apply Z.mul_nonneg_nonneg; [lia|apply Z.pow_nonneg; lia]).
  rewrite Z.abs_eq, round53_exact by assumption.
  destruct (Z.eq_dec (m * 2 ^ k) 0) as [->|]; [reflexivity|].
  rewrite Z.sgn_pos by lia. lia.
Qed.

Lemma hue_range (u : Z) :
  0 <= u < 2147483648 ->
  exists k, 0 <= k < 360 /\ hue (u # 2147483648) = Number.of_int k.
Proof.
  intros Hu.
  unfold hue, Number.floor, Number.mul, Qmult, Number.of_int, inject_Z.
  cbn [Qnum Qden].
  rewrite (fl_exact _ _ (u * 360) 0) by (cbn; lia).
  unfold Qfloor. eexists; split; [|reflexivity].
  change (Z.pos (2147483648 * 1)) with 2147483648.
  Z.div_mod_to_equations. lia.
Qed.

Lemma saturation_range (u : Z) :
  0 <= u < 2147483648 ->
  (40 <= saturation (u # 2147483648))%Q /\
  (saturation (u # 2147483648) < 100)%Q.
Proof.
  intros Hu.
  unfold saturation, Number.add, Number.mul, Qmult, Number.of_int, inject_Z.
  cbn [Qnum Qden].
  rewrite (fl_exact _ _ (u * 60) 0) by (cbn; lia).
  unfold Qle, Qlt, Qplus. cbn [Qnum Qden].
  change (Z.pos (2147483648 * 1 * 1)) with 2147483648.
  change (Z.pos (2147483648 * 1)) with 2147483648.
  lia.
Qed.

Lemma lightness_value (a b c d : Z) :
  0 <= a < 2147483648 -> 0 <= b < 2147483648 ->
  0 <= c < 2147483648 -> 0 <= d < 2147483648 ->
  (lightness (a # 2147483648) (b # 2147483648) (c # 2147483648)
     (d # 2147483648) == (25 * (a + b + c + d)) # 2147483648)%Q.
Proof.
  intros Ha Hb Hc Hd.
  unfold lightness, Number.add, Number.mul, Qmult, Qplus, Number.of_int,
    inject_Z.
  cbn [Qnum Qden].
  rewrite (fl_exact _ _ ((a + b + c + d) * 25) 93).
  - unfold Qeq. cbn [Qnum Qden]. lia.
  - change (2 ^ 53) with 9007199254740992. lia.
  - lia.
  - lia.
Qed.

Section ColorComponents.
Context {platform : Platform}.

(** X12: the colour [createColor] returns is
    ["hsl(" + h + "," + s + "%," + l + "%)"] where, the generator's values
    being below 1, the hue [h] is an integer from 0 to 359, the saturation
    [s] lies in [[40, 100)] and the lightness [l] in [[0, 100)]. *)
Theorem createColor_components (g : PseudorandomNumberGenerator) :
  let r := fun i => fst (generate (after i g)) in
  let h := hue (r 0%nat) in
  let s := saturation (r 1%nat) in
  let l := lightness (r 2%nat) (r 3%nat) (r 4%nat) (r 5%nat) in
  fst (createColor g)
  = ("hsl(" ++ to_string h ++ "," ++ (to_string s ++ "%") ++ ","
     ++ (to_string l ++ "%") ++ ")")%string /\
  (exists k, 0 <= k < 360 /\ h = Number.of_int k) /\
  (40 <= s)%Q /\ (s < 100)%Q /\ (0 <= l)%Q /\ (l < 100)%Q.
Proof.
  cbv zeta. cbn [after]. split.
  { rewrite createColor_draws. cbn [fst draws Ref.color_of_draws].
    unfold hue, saturation, lightness. reflexivity. }
  rewrite !generate_value.
  pose proof (advance_high_bit_clear g) as H0.
  pose proof (advance_high_bit_clear (advance g)) as H1.
  pose proof (advance_high_bit_clear (advance (advance g))) as H2.
  pose proof (advance_high_bit_clear (advance (advance (advance g)))) as H3.
  pose proof (advance_high_bit_clear
                (advance (advance (advance (advance g))))) as H4.
  pose proof (advance_high_bit_clear
                (advance (advance (advance (advance (advance g)))))) as H5.
  split; [apply hue_range; exact H0|].
  destruct (saturation_range _ H1) as (S1 & S2).
  split; [exact S1|]. split; [exact S2|].
  rewrite (lightness_value _ _ _ _ H2 H3 H4 H5).
  unfold Qle, Qlt. cbn [Qnum Qden]. lia.
Qed.

End ColorComponents.

(** ** createCanvas: what is painted *)

Lemma painted_cells (data : Array.t Number) :
  forall (i : nat) (width scale : Z) (color spotcolor style : string),
    painted style (paint_cells data (Z.of_nat i) width scale color spotcolor)
    = flat_map (block_of width scale color spotcolor)
        (combine (seq i (length data)) data).
Proof.
  induction data as [|cell rest IH]; intros i width scale color spotcolor style;
    [reflexivity|].
  cbn [paint_cells length seq combine flat_map painted block_of].
  replace (Z.of_nat i + 1) with (Z.of_nat (S i)) by lia.
  destruct (Qeq_bool cell 0); cbn [app painted]; rewrite IH; reflexivity.
Qed.

Lemma createCanvas_calls (imageData : Array.t Number)
  (color bgcolor spotcolor initial : string) (scale : Z) :
  let c := createCanvas imageData color scale bgcolor spotcolor in
  let width := Z.sqrt (Z.of_nat (length imageData)) in
  Canvas.width c = width * scale /\ Canvas.height c = width * scale /\
  painted initial (Canvas.calls c)
  = (0, 0, width * scale, width * scale, bgcolor)
    :: flat_map (block_of width scale color spotcolor)
         (combine (seq 0 (length imageData)) imageData).
Proof.
  cbv zeta. unfold createCanvas.
  cbn [Canvas.width Canvas.height Canvas.calls painted].
  split; [reflexivity|]. split; [reflexivity|].
  f_equal. apply (painted_cells imageData 0).
Qed.

Lemma createCanvas_inside (imageData : Array.t Number)
  (color bgcolor spotcolor initial : string) (scale : Z) (n : nat) :
  length imageData = (n * n)%nat -> 0 <= scale ->
  let c := createCanvas imageData color scale bgcolor spotcolor in
  Canvas.width c = Z.of_nat n * scale /\
  Canvas.height c = Z.of_nat n * scale /\
  Forall (inside c) (painted initial (Canvas.calls c)).
Proof.
  intros Hlen Hscale c.
  destruct (createCanvas_calls imageData color bgcolor spotcolor initial scale)
    as (Hw & Hh & Hp).
  fold c in Hw, Hh, Hp.
  assert (Hsqrt : Z.sqrt (Z.of_nat (length imageData)) = Z.of_nat n).
  { rewrite Hlen, Nat2Z.inj_mul. apply Z.sqrt_square. lia. }
  rewrite Hsqrt in Hw, Hh, Hp.
  split; [exact Hw|]. split; [exact Hh|].
  rewrite Hp. constructor; [unfold inside; rewrite Hw, Hh; lia|].
  apply Forall_forall. intros [[[[x y] w] h] s] Hin.
  apply in_flat_map in Hin. destruct Hin as ([i cell] & Hi & Hb).
  apply in_combine_l, in_seq in Hi. unfold block_of in Hb.
  destruct (Qeq_bool cell 0); [contradiction|].
  destruct Hb as [Hb|[]]. injection Hb as <- <- <- <- _.
  assert (Hn : (0 < n)%nat) by (destruct n; lia).
  assert (0 <= Z.of_nat i mod Z.of_nat n < Z.of_nat n)
    by (apply Z.mod_pos_bound; lia).
  assert (0 <= Z.of_nat i / Z.of_nat n < Z.of_nat n).
  { split; [apply Z.div_pos; lia|].
    apply Z.div_lt_upper_bound; [lia|]. rewrite <- Nat2Z.inj_mul. lia. }
  unfold inside. rewrite Hw, Hh. nia.
Qed.

(** X13: on a grid of [n * n] cells, whatever [fillStyle] the canvas starts
    with, [createCanvas] fills first the whole canvas in [bgcolor]; then,
    cell by cell in the order of the grid, nothing for a cell 0, and for
    any other cell the square of side [scale] at column [i mod n], row
    [i / n], in [color] when the cell is 1 and in [spotcolor] otherwise. *)
Theorem createCanvas_painted (imageData : Array.t Number)
  (color bgcolor spotcolor initial : string) (scale : Z) (n : nat) :
  length imageData = (n * n)%nat ->
  let c := createCanvas imageData color scale bgcolor spotcolor in
  let width := Z.of_nat n in
  Canvas.width c = width * scale /\ Canvas.height c = width * scale /\
  painted initial (Canvas.calls c)
  = (0, 0, width * scale, width * scale, bgcolor)
    :: flat_map (block_of width scale color spotcolor)
         (combine (seq 0 (length imageData)) imageData).
Proof.
  intros Hlen. cbv zeta.
  pose proof (createCanvas_calls imageData color bgcolor spotcolor initial
                scale) as H.
  cbv zeta in H.
  replace (Z.sqrt (Z.of_nat (length imageData))) with (Z.of_nat n) in H.
  - exact H.
  - rewrite Hlen, Nat2Z.inj_mul. symmetry. apply Z.sqrt_square. lia.
Qed.

(** X14: on a grid of [n * n] cells and with a scale that is not negative,
    the canvas is [n * scale] wide and high and every rectangle
    [createCanvas] fills lies within it. *)
Theorem createCanvas_in_bounds (imageData : Array.t Number)
  (color bgcolor spotcolor initial : string) (scale : Z) (n : nat) :
  length imageData = (n * n)%nat -> 0 <= scale ->
  let c := createCanvas imageData color scale bgcolor spotcolor in
  Canvas.width c = Z.of_nat n * scale /\
  Canvas.height c = Z.of_nat n * scale /\
  Forall (inside c) (painted initial (Canvas.calls c)).
Proof. intros H1 H2. apply createCanvas_inside; assumption. Qed.

(** ** createIcon: what the colours depend on *)

Section IconCanvas.
Context {platform : Platform}.

(** X17: the three colours of an icon depend on the seed and on the colours
    supplied, not on the size, the scale or the earlier state of the
    generator; and the grid does not depend on the scale. *)
Theorem createIcon_size_scale_independence
  (size1 scale1 size2 scale2 : option Z)
  (seed_opt color bgcolor spotcolor : option string) (entropy : string)
  (g1 g2 : PseudorandomNumberGenerator) :
  let l1 := fst (createIcon_locals
                   (Some (Opts.make size1 scale1 seed_opt color bgcolor
                            spotcolor)) entropy g1) in
  let l2 := fst (createIcon_locals
                   (Some (Opts.make size2 scale2 seed_opt color bgcolor
                            spotcolor)) entropy g2) in
  let l3 := fst (createIcon_locals
                   (Some (Opts.make size1 scale2 seed_opt color bgcolor
                            spotcolor)) entropy g2) in
  Icon.color l1 = Icon.color l2 /\ Icon.bgcolor l1 = Icon.bgcolor l2 /\
  Icon.spotcolor l1 = Icon.spotcolor l2 /\
  Icon.imageData l1 = Icon.imageData l3.
Proof.
  cbv zeta. rewrite !createIcon_locals_eq.
  cbn [fst Icon.color Icon.bgcolor Icon.spotcolor Icon.imageData
       Opts.size Opts.scale Opts.seed Opts.color Opts.bgcolor Opts.spotcolor].
  rewrite (seed_reset _ g1 g2).
  split; [reflexivity|]. split; [reflexivity|]. split; reflexivity.
Qed.

End IconCanvas.

(** ** The further properties at concrete inputs *)

Lemma bitwise_results_int32_witness :
  0 <= 5 <= 31 /\
  is_int32 (Number.shl (4294967295 # 1) 5) /\
  is_int32 (Number.shr (4294967295 # 1) 5) /\
  is_int32 (Number.xor (4294967295 # 1) (7 # 2)).
Proof.
  split; [lia|].
  apply (bitwise_results_int32 (4294967295 # 1) (7 # 2) 5). lia.
Defined.

Lemma unsignedShiftRight_shift_witness :
  0 <= 1 <= 31 /\
  unsignedShiftRight (Number.of_int (-1)) 1 = Number.of_int 4294967295.
Proof.
  split; [lia|].
  destruct (unsignedShiftRight_shift (Number.of_int (-1)) 1 ltac:(lia))
    as (H & _).
  exact H.
Defined.

Lemma generate_state_after_four_witness :
  (4 <= 4)%nat /\
  exists a b c d,
    after 4 (seed "a"%string zero_state) = state_of a b c d /\
    0 <= a < 2147483648 /\ 0 <= b < 2147483648 /\
    0 <= c < 2147483648 /\ 0 <= d < 2147483648.
Proof.
  split; [lia|].
  apply (generate_state_after_four 4 (seed "a"%string zero_state)). lia.
Defined.

Lemma generate_depends_on_bits_witness :
  let g := state_of 1 2 3 4 in
  let g' := state_of 4294967297 2 3 (-4294967292) in
  word_bits g = word_bits g' /\
  fst (generate g) = fst (generate g') /\
  word_bits (snd (generate g)) = word_bits (snd (generate g')).
Proof.
  intros g g'.
  assert (H : word_bits g = word_bits g') by reflexivity.
  exact (conj H (generate_depends_on_bits g g' H)).
Defined.

Lemma signed_char_range (c : ascii) : -128 <= signed_char_value c <= 255.
Proof.
  unfold signed_char_value. pose proof (N_ascii_bounded c) as H.
  destruct (Z.ltb_spec (Z.of_N (N_of_ascii c)) 128); lia.
Qed.

Lemma seed_words_bounded_witness :
  (forall c, -128 <= signed_char_value c <= 255) /\
  exists a b c d,
    seed "abcdefghijklmnopqrstuvwxyz"%string zero_state = state_of a b c d /\
    let B := 26 * 4294967296 in
    Z.abs a <= B /\ Z.abs b <= B /\ Z.abs c <= B /\ Z.abs d <= B.
Proof.
  split; [exact signed_char_range|].
  exact (seed_words_bounded "abcdefghijklmnopqrstuvwxyz"%string zero_state
           signed_char_range).
Defined.

Lemma createCanvas_in_bounds_witness :
  let data := map Number.of_int [1; 0; 2; 1] in
  let c := createCanvas data "red"%string 4 "white"%string "blue"%string in
  length data = (2 * 2)%nat /\ 0 <= 4 /\
  Canvas.width c = 8 /\ Canvas.height c = 8 /\
  Forall (inside c) (painted "black"%string (Canvas.calls c)).
Proof.
  intros data c.
  assert (H1 : length data = (2 * 2)%nat) by reflexivity.
  assert (H2 : 0 <= 4) by lia.
  exact (conj H1 (conj H2
           (createCanvas_in_bounds data "red"%string "white"%string "blue"%string "black"%string 4 2
              H1 H2))).
Defined.

Example canvas_of_two_by_two :
  painted "black"%string
    (Canvas.calls
       (createCanvas (map Number.of_int [1; 0; 2; 1]) "red"%string 4 "white"%string "blue"%string))
  = [(0, 0, 8, 8, "white"%string); (0, 0, 4, 4, "red"%string); (0, 4, 4, 4, "blue"%string);
     (4, 4, 4, 4, "red"%string)].
Proof. vm_compute. reflexivity. Qed.

Example hashCode_of_seed :
  word_bits (seed "abcdefghijklmnopqrstuvwxyz0123456789"%string zero_state)
  = map hashCode
      [map signed_char_value (list_ascii_of_string "aeimquy26"%string);
       map signed_char_value (list_ascii_of_string "bfjnrvz37"%string);
       map signed_char_value (list_ascii_of_string "cgkosw048"%string);
       map signed_char_value (list_ascii_of_string "dhlptx159"%string)].
Proof. vm_compute. reflexivity. Qed.

(** [createImageData_positive_size] at size 3 after [seed("a")]. *)
Lemma createImageData_positive_size_witness :
  let g := seed "a"%string zero_state in
  0 < 3 /\ createImageData 3 g = (Undefined, snd (generate g)).
Proof.
  intros g.
  assert (H : 0 < 3) by reflexivity.
  destruct (createImageData_positive_size 3 g H) as (E & _).
  exact (conj H E).
Defined.

(** C9, as stated, fails at size -3: [createIcon] returns, with a grid
    without cells and a canvas without extent. *)
Lemma createIcon_negative_size_returns :
  let o := Opts.make (Some (-3)) None (Some "a"%string) None None None in
  Icon.size (fst (createIcon_locals (Some o) ""%string zero_state)) = -3 /\
  Icon.imageData (fst (createIcon_locals (Some o) ""%string zero_state))
  = Value [] /\
  exists c, fst (createIcon (Some o) ""%string zero_state) = Value c /\
            Canvas.width c = 0 /\ Canvas.height c = 0.
Proof.
  cbv zeta. split; [vm_compute; reflexivity|].
  split; [vm_compute; reflexivity|].
  eexists. split; [vm_compute; reflexivity|]. split; reflexivity.
Qed.

(** [createIcon_nonpositive_size] at size -3. *)
Lemma createIcon_nonpositive_size_witness :
  let o := Opts.make (Some (-3)) None (Some "a"%string) None None None in
  let l := fst (createIcon_locals (Some o) ""%string zero_state) in
  Opts.size o = Some (-3) /\ -3 <= 0 /\
  Icon.size l = -3 /\ Icon.imageData l = Value [].
Proof.
  intros o l.
  assert (H1 : Opts.size o = Some (-3)) by reflexivity.
  assert (H2 : -3 <= 0) by discriminate.
  destruct (createIcon_nonpositive_size o (-3) ""%string zero_state H1 H2)
    as (Hs & Hd & _).
  exact (conj H1 (conj H2 (conj Hs Hd))).
Defined.

(** [createCanvas_painted] on a grid of two rows of two cells. *)
Lemma createCanvas_painted_witness :
  let data := map Number.of_int [1; 0; 2; 1] in
  let c := createCanvas data "red"%string 4 "white"%string "blue"%string in
  length data = (2 * 2)%nat /\
  painted "black"%string (Canvas.calls c)
  = [(0, 0, 8, 8, "white"%string); (0, 0, 4, 4, "red"%string);
     (0, 4, 4, 4, "blue"%string); (4, 4, 4, 4, "red"%string)].
Proof.
  intros data c.
  assert (H : length data = (2 * 2)%nat) by reflexivity.
  destruct (createCanvas_painted data "red"%string "white"%string
              "blue"%string "black"%string 4 2 H) as (_ & _ & Hp).
  split; [exact H|]. unfold c. rewrite Hp. vm_compute. reflexivity.
Defined.

(** [createImageData_nonpositive_size] at size 0. *)
Lemma createImageData_nonpositive_size_witness :
  let g := seed "a"%string zero_state in
  0 <= 0 /\ fst (createImageData 0 g) = Value [] /\
  snd (createImageData 0 g) = g.
Proof.
  intros g.
  assert (H : 0 <= 0) by discriminate.
  exact (conj H (createImageData_nonpositive_size 0 g H)).
Defined.